(** * The streaming chat core of QtOllama

    A shallow embedding of the chat controller ([MainWindow]) and of the
    response worker ([ResponseThread]) of the three copies of the program:
    [quilLlama.py], [streamchatContextAdder.py] (the same text for every
    function embedded here) and [QtOllama-main-quilly/quilLlama.py]
    (module [Quilly], where it differs).

    Python lists are objects: [self.messages] is a reference, and the
    worker receives [messages.copy()].  The embedding keeps a store of list
    objects (a [gmap] from locations to lists of messages), so that sharing
    and copying are visible.  Message dicts are never mutated after they are
    built, so a message is a value.  Logging has no effect on the state and
    is left out.

    The signals of a worker are handled by the slots of the window, one at
    a time and in the order of emission.  [Op] lists what can happen to
    the window, and a list of [Op] is one interleaving of the actions of the
    user with the signals of the workers. *)

From Stdlib Require Import ZArith Lia String Ascii.
From stdpp Require Import base option list gmap strings pretty.

(** ** Strings *)

(** [len(s)], a Python int. *)
Definition len (s : string) : Z := Z.of_nat (String.length s).

(** The truth value of a string: [if prompt:]. *)
Definition truthy (s : string) : bool :=
  match s with
  | EmptyString => false
  | String _ _ => true
  end.

(** The text of all fragments, in order. *)
Definition concat_fragments (fragments : list string) : string :=
  foldr String.append "" fragments.

(** ** Messages *)

(** The dict [{"role": ..., "content": ...}]. *)
Record Message := mkMessage { role : string; content : string }.

Global Instance Message_eq_dec : EqDecision Message.
Proof. solve_decision. Defined.

(** [sum(len(msg["content"]) for msg in messages)]: a left-to-right sum
    starting at 0. *)
Definition total_length (messages : list Message) : Z :=
  fold_left (λ acc msg, acc + len (content msg))%Z messages 0%Z.

(** The loop of [trim_messages]:
<<
    while total_length > self.context_length and len(self.messages) > 1:
        removed_message = self.messages.pop(0)
        total_length -= len(removed_message["content"])
>>
    [total_length] is the running counter of the source, not recomputed. *)
Fixpoint trim_loop (context_length total_length : Z) (messages : list Message)
  : list Message :=
  match messages with
  | [] => []
  | removed_message :: rest =>
      if (total_length >? context_length)%Z && (1 <? length messages)%nat
      then trim_loop context_length
             (total_length - len (content removed_message)) rest
      else messages
  end.

(** The effect of [trim_messages] on the contents of the list object. *)
Definition trim_list (context_length : Z) (messages : list Message) : list Message :=
  trim_loop context_length (total_length messages) messages.

(** ** The store of list objects *)

(** A location names one Python list object. *)
Abbreviation loc := positive (only parsing).
Abbreviation store := (gmap positive (list Message)) (only parsing).

(** A new list object with the given contents: [[]], or the result of
    [.copy()]. *)
Definition list_new (contents : list Message) (h : store) : loc * store :=
  let l := fresh (dom h) in (l, <[l := contents]> h).

(** The contents of a list object. *)
Definition list_read (l : loc) (h : store) : list Message :=
  default [] (h !! l).

(** [l.append(m)]: the object is changed in place. *)
Definition list_append (l : loc) (m : Message) (h : store) : store :=
  alter (λ ms, ms ++ [m]) l h.

(** [l.copy()]: a new object with the same items. *)
Definition list_copy (l : loc) (h : store) : loc * store :=
  list_new (list_read l h) h.

(** ** The model service and the fragment generator *)

(** An exception object; [str e] is [str(e)]. *)
Record Exception := mkException { exc_type : string; str : string }.

(** One item of the stream of [ollama.chat(..., stream=True)]; the
    generator reads [chunk['message']['content']]. *)
Record Chunk := mkChunk { message : Message }.

(** What iterating the stream does: the chunks it delivers, then either the
    end of the stream or an exception. *)
Record ChatStream := mkChatStream {
  chunks : list Chunk;
  failure : option Exception
}.

(** [ollama.chat(model=..., messages=..., stream=True)]. *)
Definition Service := string → list Message → ChatStream.

(** What iterating a generator of fragments does. *)
Record Fragments := mkFragments {
  yielded : list string;
  raised : option Exception
}.

(** [ollama_generator]: yields the content of each chunk; an exception of
    the stream is logged and raised again. *)
Definition ollama_generator (ollama_chat : Service)
    (model_name : string) (messages : list Message) : Fragments :=
  let stream := ollama_chat model_name messages in
  {| yielded := map (λ chunk, content (message chunk)) (chunks stream);
     raised := failure stream |}.

(** ** The response worker *)

(** The three signals of [ResponseThread], each declared [pyqtSignal(str)]. *)
Inductive Signal :=
  | response_chunk_received (chunk : string)
  | response_finished (response : string)
  | error_occurred (description : string).

Global Instance Signal_eq_dec : EqDecision Signal.
Proof. solve_decision. Defined.

Module ResponseThread.

Record t := mk {
  model_name : string;
  messages : loc;
  isRunning : bool
}.

(** [self.model_name = model_name; self.messages = messages.copy()]. *)
Definition __init__ (model_name : string) (messages : loc) (h : store) : t * store :=
  let '(copy, h') := list_copy messages h in
  ({| model_name := model_name; messages := copy; isRunning := false |}, h').

(** [start()]. *)
Definition start (self : t) : t :=
  {| model_name := model_name self; messages := messages self; isRunning := true |}.

(** [terminate()] followed by [wait()], and also the end of [run]. *)
Definition stopped (self : t) : t :=
  {| model_name := model_name self; messages := messages self; isRunning := false |}.

(** The body of [run] after [response = ""], as the list of signals emitted:
<<
    try:
        for chunk in ollama_generator(self.model_name, self.messages):
            response += chunk
            self.response_chunk_received.emit(chunk)
        self.response_finished.emit(response)
    except Exception as e:
        self.error_occurred.emit(str(e))
>> *)
Fixpoint run_loop (response : string) (fragments : list string)
    (raised : option Exception) : list Signal :=
  match fragments with
  | chunk :: rest =>
      response_chunk_received chunk :: run_loop (response +:+ chunk) rest raised
  | [] =>
      match raised with
      | None => [response_finished response]
      | Some e => [error_occurred (str e)]
      end
  end.

Definition run (ollama_chat : Service) (self : t) (h : store) : list Signal :=
  let gen := ollama_generator ollama_chat (model_name self)
               (list_read (messages self) h) in
  run_loop "" (yielded gen) (raised gen).

End ResponseThread.

(** ** The controller *)

(** What the chat display was asked to show since it was last cleared:
    [chat_display.append(text)] and [chat_display.insertPlainText(text)]. *)
Inductive DisplayOp :=
  | display_append (text : string)
  | display_insertPlainText (text : string).

Global Instance DisplayOp_eq_dec : EqDecision DisplayOp.
Proof. solve_decision. Defined.

(** The attributes of [MainWindow] that the chat core reads or writes,
    with the store of list objects.  [message_boxes] records the calls of
    [QMessageBox.critical]; [status_bar] is the text of the status bar. *)
Record State := mkState {
  heap : store;
  messages : loc;
  assistant_response : string;
  thread : option ResponseThread.t;
  selected_model : string;
  context_length : Z;
  input_field : string;
  chat_display : list DisplayOp;
  message_boxes : list string;
  status_bar : string
}.

Definition set_heap (v : store) (s : State) : State :=
  mkState v (messages s) (assistant_response s) (thread s) (selected_model s)
    (context_length s) (input_field s) (chat_display s) (message_boxes s) (status_bar s).
Definition set_messages (v : loc) (s : State) : State :=
  mkState (heap s) v (assistant_response s) (thread s) (selected_model s)
    (context_length s) (input_field s) (chat_display s) (message_boxes s) (status_bar s).
Definition set_assistant_response (v : string) (s : State) : State :=
  mkState (heap s) (messages s) v (thread s) (selected_model s)
    (context_length s) (input_field s) (chat_display s) (message_boxes s) (status_bar s).
Definition set_thread (v : option ResponseThread.t) (s : State) : State :=
  mkState (heap s) (messages s) (assistant_response s) v (selected_model s)
    (context_length s) (input_field s) (chat_display s) (message_boxes s) (status_bar s).
Definition set_selected_model (v : string) (s : State) : State :=
  mkState (heap s) (messages s) (assistant_response s) (thread s) v
    (context_length s) (input_field s) (chat_display s) (message_boxes s) (status_bar s).
Definition set_context_length (v : Z) (s : State) : State :=
  mkState (heap s) (messages s) (assistant_response s) (thread s) (selected_model s)
    v (input_field s) (chat_display s) (message_boxes s) (status_bar s).
Definition set_input_field (v : string) (s : State) : State :=
  mkState (heap s) (messages s) (assistant_response s) (thread s) (selected_model s)
    (context_length s) v (chat_display s) (message_boxes s) (status_bar s).
Definition set_chat_display (v : list DisplayOp) (s : State) : State :=
  mkState (heap s) (messages s) (assistant_response s) (thread s) (selected_model s)
    (context_length s) (input_field s) v (message_boxes s) (status_bar s).
Definition set_message_boxes (v : list string) (s : State) : State :=
  mkState (heap s) (messages s) (assistant_response s) (thread s) (selected_model s)
    (context_length s) (input_field s) (chat_display s) v (status_bar s).
Definition set_status_bar (v : string) (s : State) : State :=
  mkState (heap s) (messages s) (assistant_response s) (thread s) (selected_model s)
    (context_length s) (input_field s) (chat_display s) (message_boxes s) v.

(** The conversation: the contents of the list [self.messages] refers to. *)
Definition conversation (s : State) : option (list Message) :=
  heap s !! messages s.

(** [self.messages.append(m)]. *)
Definition messages_append (m : Message) (s : State) : State :=
  set_heap (list_append (messages s) m (heap s)) s.

(** [self.chat_display.append(text)]. *)
Definition chat_display_append (text : string) (s : State) : State :=
  set_chat_display (chat_display s ++ [display_append text]) s.

(** [self.chat_display.insertPlainText(text)]. *)
Definition chat_display_insertPlainText (text : string) (s : State) : State :=
  set_chat_display (chat_display s ++ [display_insertPlainText text]) s.

(** [display_message], the same in the three copies. *)
Definition display_message (role content : string) (s : State) : State :=
  if String.eqb role "user"
  then chat_display_append ("<b>User:</b> " +:+ content) s
  else chat_display_append ("<b>Assistant:</b> " +:+ content) s.

(** The constructor: an empty list of messages, no worker. *)
Definition new_window (context_length : Z) : State :=
  let '(l, h) := list_new [] ∅ in
  mkState h l "" None "" context_length "" [] [] "".

(** ** Text *)

(** A character of a string stands for a code point below 256. *)

(** [c.isspace()]: the control characters 9 to 13 and 28 to 31, the space,
    and the code points 133 and 160. *)
Definition isspace (c : ascii) : bool :=
  let n := nat_of_ascii c in
  ((9 <=? n) && (n <=? 13)) || ((28 <=? n) && (n <=? 32))
  || (n =? 133) || (n =? 160).

(** [s.split()]: the maximal runs of characters that are not spaces;
    [word] is the run being read. *)
Fixpoint split_from (word : string) (s : string) : list string :=
  match s with
  | EmptyString => if truthy word then [word] else []
  | String c rest =>
      if isspace c
      then (if truthy word then word :: split_from "" rest
            else split_from "" rest)
      else split_from (word +:+ String c "") rest
  end.

Definition split (s : string) : list string := split_from "" s.

(** [c.lower()]: the capital letters A to Z, and the capital letters of
    the code points 192 to 222 but for the multiplication sign, move up by
    32. *)
Definition lower_char (c : ascii) : ascii :=
  let n := nat_of_ascii c in
  if ((65 <=? n) && (n <=? 90))
     || ((192 <=? n) && (n <=? 222) && negb (n =? 215))
  then ascii_of_nat (n + 32) else c.

(** [s.lower()]. *)
Fixpoint lower (s : string) : string :=
  match s with
  | EmptyString => ""
  | String c rest => String (lower_char c) (lower rest)
  end.

(** What follows the last [c] in [s], if [c] occurs. *)
Fixpoint after_last (c : ascii) (s : string) : option string :=
  match s with
  | EmptyString => None
  | String a rest =>
      match after_last c rest with
      | Some tail => Some tail
      | None => if Ascii.eqb a c then Some rest else None
      end
  end.

(** [QFileInfo(path).suffix()]: what follows the last dot of the file
    name, the file name being what follows the last slash. *)
Definition suffix (path : string) : string :=
  default "" (after_last "." (default path (after_last "/" path))).

(** The line feed. *)
Definition LF : string := String (ascii_of_nat 10) "".

(** [sep.join(parts)]. *)
Fixpoint join (sep : string) (parts : list string) : string :=
  match parts with
  | [] => ""
  | [part] => part
  | part :: rest => part +:+ sep +:+ join sep rest
  end.

(** The text built at the start of [download_chat]:
    ["\n\n".join([f"**{msg['role']}**: {msg['content']}" for msg in ...])]. *)
Definition markdown_content (messages : list Message) : string :=
  join (LF +:+ LF)
    (map (λ msg, "**" +:+ role msg +:+ "**: " +:+ content msg) messages).

(** [file_extension in ["txt", "md", "html", "pdf"]]. *)
Definition known_extension (file_extension : string) : bool :=
  bool_decide (file_extension ∈ ["txt"; "md"; "html"; "pdf"]).

(** The exceptions of a key that a dict lacks, of a name that is not
    defined and of an encoding that does not exist. *)
Definition KeyError (key : string) : Exception :=
  mkException "KeyError" ("'" +:+ key +:+ "'").
Definition NameError (name : string) : Exception :=
  mkException "NameError" ("name '" +:+ name +:+ "' is not defined").
Definition LookupError (encoding : string) : Exception :=
  mkException "LookupError" ("unknown encoding: " +:+ encoding).

(** The files written: their paths and texts. *)
Abbreviation files := (gmap string string) (only parsing).

(** What [show_analytics] counts. *)
Record Analytics := mkAnalytics {
  total_messages : nat;
  user_messages : list string;
  assistant_messages : list string;
  total_tokens : nat
}.

(** [show_analytics] up to the text of the box; it is the same in the three
    copies. *)
Definition analytics (messages : list Message) : Analytics :=
  {| user_messages :=
       map content (filter (λ msg, role msg = "user") messages);
     assistant_messages :=
       map content (filter (λ msg, role msg = "assistant") messages);
     total_messages := length messages;
     total_tokens :=
       fold_left (λ acc msg, acc + length (split (content msg))) messages 0 |}.

(** The text [show_analytics] shows in an information box; the window is
    left as it is. *)
Definition show_analytics (s : State) : string :=
  let a := analytics (list_read (messages s) (heap s)) in
  "Total messages: " +:+ pretty (total_messages a) +:+ LF
  +:+ "User messages: " +:+ pretty (length (user_messages a)) +:+ LF
  +:+ "Assistant messages: " +:+ pretty (length (assistant_messages a)) +:+ LF
  +:+ "Estimated total tokens: " +:+ pretty (total_tokens a) +:+ LF
  +:+ "Current context length: " +:+ pretty (context_length s).

(** What a call of [download_chat] did in [quilLlama.py] and
    [streamchatContextAdder.py]: nothing, or the display was printed to a
    PDF file, or opening the file raised. *)
Inductive Downloaded :=
  | download_nothing
  | download_printed (filename : string) (display : list DisplayOp)
  | download_open_raised (filename : string) (e : Exception).

(** What a call of [download_chat] did in [QtOllama-main-quilly]: the files
    afterwards, what was printed to a PDF file, and the exception that
    ended the call, if any. *)
Record Download := mkDownload {
  download_files : files;
  download_printed_pdf : option (string * list DisplayOp);
  download_raised : option Exception
}.

(** The controller of [quilLlama.py] and of [streamchatContextAdder.py]. *)
Module MainWindow.

Definition __init__ : State := new_window 4096.

Definition update_context_length (value : Z) (s : State) : State :=
  set_context_length value s.

Definition model_changed (text : string) (s : State) : State :=
  set_selected_model text s.

(** [trim_messages]: the loop pops from the list object itself. *)
Definition trim_messages (s : State) : State :=
  set_heap (alter (trim_list (context_length s)) (messages s) (heap s)) s.

(** Construction and start of the worker, the last step of a send. *)
Definition start_thread (s : State) : State :=
  let '(t, h) := ResponseThread.__init__ (selected_model s) (messages s) (heap s) in
  set_thread (Some (ResponseThread.start t)) (set_heap h s).

Definition send_message (s : State) : State :=
  let prompt := input_field s in
  if truthy prompt then
    let s := messages_append (mkMessage "user" prompt) s in
    let s := display_message "user" prompt s in
    let s := set_input_field "" s in
    let s := set_assistant_response "" s in
    let s := chat_display_append "<b>Assistant:</b> " s in
    let s := trim_messages s in
    start_thread s
  else s.

Definition handle_response_chunk (chunk : string) (s : State) : State :=
  let s := set_assistant_response (assistant_response s +:+ chunk) s in
  chat_display_insertPlainText chunk s.

Definition handle_response_finished (s : State) : State :=
  messages_append (mkMessage "assistant" (assistant_response s)) s.

Definition handle_error (error_message : string) (s : State) : State :=
  set_message_boxes
    (message_boxes s ++ ["An error occurred: " +:+ error_message]) s.

Definition stop_chat (s : State) : State :=
  let s :=
    match thread s with
    | Some t =>
        if ResponseThread.isRunning t
        then set_thread (Some (ResponseThread.stopped t)) s
        else s
    | None => s
    end in
  let '(l, h) := list_new [] (heap s) in
  let s := set_messages l (set_heap h s) in
  set_chat_display [] s.

Definition restart_chat (s : State) : State := stop_chat s.

(** The slot each signal is connected to. *)
Definition deliver (sig : Signal) (s : State) : State :=
  match sig with
  | response_chunk_received chunk => handle_response_chunk chunk s
  | response_finished _ => handle_response_finished s
  | error_occurred description => handle_error description s
  end.

(** The signals of a worker, handled in the order of emission. *)
Definition deliver_all (sigs : list Signal) (s : State) : State :=
  fold_left (λ s sig, deliver sig s) sigs s.

(** The worker held by [self.thread] comes to the end of [run]. *)
Definition thread_finished (s : State) : State :=
  match thread s with
  | Some t => set_thread (Some (ResponseThread.stopped t)) s
  | None => s
  end.

(** One exchange without interference: a send, the run of its worker to
    the end, and the handling of every signal. *)
Definition session (ollama_chat : Service) (s : State) : list Signal * State :=
  if truthy (input_field s) then
    let s1 := send_message s in
    match thread s1 with
    | Some t =>
        let sigs := ResponseThread.run ollama_chat t (heap s1) in
        (sigs, deliver_all sigs (thread_finished s1))
    | None => ([], s1)
    end
  else ([], s).

(** What can happen to the window: the user edits the input field or
    uses a button, the combo box or the spinner; a signal of some worker
    is handled; the current worker ends. *)
Inductive Op :=
  | op_input (text : string)
  | op_send
  | op_stop
  | op_restart
  | op_model_changed (text : string)
  | op_context_length (value : Z)
  | op_signal (sig : Signal)
  | op_thread_finished.

Definition step (op : Op) (s : State) : State :=
  match op with
  | op_input text => set_input_field text s
  | op_send => send_message s
  | op_stop => stop_chat s
  | op_restart => restart_chat s
  | op_model_changed text => model_changed text s
  | op_context_length value => update_context_length value s
  | op_signal sig => deliver sig s
  | op_thread_finished => thread_finished s
  end.

Definition steps (ops : list Op) (s : State) : State :=
  fold_left (λ s op, step op s) ops s.

(** [download_chat]; [filename] is what the file dialog returned, empty
    when it was cancelled, and [os_open path] is the error of the system
    when [path] cannot be opened for writing.  The file is opened with
    [encoding='utf-REFACTOR NOTES 8-30'], which names no encoding, so that
    [open] raises before anything can be written; the text built from the
    messages is not used. *)
Definition download_chat (os_open : string → option Exception)
    (filename : string) (s : State) : Downloaded :=
  if truthy filename then
    let file_extension := lower (suffix filename) in
    let filename :=
      if negb (known_extension file_extension)
      then filename +:+ ".txt" else filename in
    if String.eqb file_extension "pdf"
    then download_printed filename (chat_display s)
    else
      match os_open filename with
      | Some e => download_open_raised filename e
      | None => download_open_raised filename (LookupError "utf-REFACTOR NOTES 8-30")
      end
  else download_nothing.

End MainWindow.

(** The controller and the worker of [QtOllama-main-quilly/quilLlama.py],
    where they differ from the two other copies.  [model_changed],
    [handle_response_chunk], [handle_response_finished], [handle_error],
    [display_message], [stop_chat] and [restart_chat] are the same text. *)
Module Quilly.

Definition __init__ : State := new_window 8192.

(** The body is [pass]: the assignment is commented out. *)
Definition update_context_length (value : Z) (s : State) : State := s.

(** [send_message]: there is no call of [trim_messages] here. *)
Definition send_message (s : State) : State :=
  let prompt := input_field s in
  if truthy prompt then
    let s := messages_append (mkMessage "user" prompt) s in
    let s := display_message "user" prompt s in
    let s := set_input_field "" s in
    let s := set_assistant_response "" s in
    let s := chat_display_append "<b>Assistant:</b> " s in
    MainWindow.start_thread s
  else s.

(** [for msg in reversed(messages): if msg['role'] == 'user': return
    msg['content']], then [return ""]. *)
Fixpoint first_user (reversed : list Message) : string :=
  match reversed with
  | [] => ""
  | msg :: rest =>
      if String.eqb (role msg) "user" then content msg else first_user rest
  end.

Definition get_last_user_message (s : State) : string :=
  first_user (rev (list_read (messages s) (heap s))).

Definition update_status (status : string) (s : State) : State :=
  set_status_bar status s.

(** The exception of a call of a method that no class defines. *)
Definition AttributeError (name : string) : Exception :=
  mkException "AttributeError"
    ("'MainWindow' object has no attribute '" +:+ name +:+ "'").

(** [perform_ai_analysis]; [selection] is the selected text of the chat
    display when there is one.  The file defines no [trim_messages], so
    the call [self.trim_messages()] raises and the worker is not started;
    what was done before the call stays.  The result is the state when
    the slot ends and the exception that ends it, if any. *)
Definition perform_ai_analysis (selection : option string)
    (analysis_type : string) (s : State) : State * option Exception :=
  let text :=
    match selection with
    | Some selected => Some selected
    | None =>
        let text := get_last_user_message s in
        if truthy text then Some text else None
    end in
  match text with
  | None => (update_status "Please select text or send a message first." s, None)
  | Some text =>
      let prompt := "Please perform a " +:+ analysis_type
                    +:+ " on the following text: '" +:+ text +:+ "'" in
      let s := messages_append (mkMessage "user" prompt) s in
      let s := display_message "user" prompt s in
      let s := set_assistant_response "" s in
      let s := chat_display_append "<b>Assistant:</b> " s in
      (s, Some (AttributeError "trim_messages"))
  end.

(** An argument of [emit]: a string, or an exception object. *)
Inductive PyObject :=
  | PyStr (s : string)
  | PyExc (e : Exception).

(** [signal.emit(arg)] for a signal declared [pyqtSignal(str)]: an
    argument that is not a string is refused with a [TypeError] and
    nothing is emitted. *)
Definition emit (signal : string → Signal) (arg : PyObject) : Signal + Exception :=
  match arg with
  | PyStr s => inl (signal s)
  | PyExc e =>
      inr (mkException "TypeError"
             ("emit(): argument 1 has unexpected type '" +:+ exc_type e +:+ "'"))
  end.

(** [run], whose handler ends with [self.error_occurred.emit(e)]: the
    signals emitted, and the exception that leaves [run], if any. *)
Fixpoint run_loop (response : string) (fragments : list string)
    (raised : option Exception) : list Signal * option Exception :=
  match fragments with
  | chunk :: rest =>
      let '(sigs, uncaught) := run_loop (response +:+ chunk) rest raised in
      (response_chunk_received chunk :: sigs, uncaught)
  | [] =>
      match raised with
      | None => ([response_finished response], None)
      | Some e =>
          match emit error_occurred (PyExc e) with
          | inl sig => ([sig], None)
          | inr type_error => ([], Some type_error)
          end
      end
  end.

Definition run (ollama_chat : Service) (self : ResponseThread.t) (h : store)
  : list Signal * option Exception :=
  let gen := ollama_generator ollama_chat (ResponseThread.model_name self)
               (list_read (ResponseThread.messages self) h) in
  run_loop "" (yielded gen) (raised gen).

(** What can happen to the window; [op_analysis] is an action of the
    analysis menu or toolbar. *)
Inductive Op :=
  | op_input (text : string)
  | op_send
  | op_analysis (selection : option string) (analysis_type : string)
  | op_stop
  | op_restart
  | op_model_changed (text : string)
  | op_context_length (value : Z)
  | op_signal (sig : Signal)
  | op_thread_finished.

Definition step (op : Op) (s : State) : State :=
  match op with
  | op_input text => set_input_field text s
  | op_send => send_message s
  | op_analysis selection analysis_type =>
      fst (perform_ai_analysis selection analysis_type s)
  | op_stop => MainWindow.stop_chat s
  | op_restart => MainWindow.restart_chat s
  | op_model_changed text => MainWindow.model_changed text s
  | op_context_length value => update_context_length value s
  | op_signal sig => MainWindow.deliver sig s
  | op_thread_finished => MainWindow.thread_finished s
  end.

Definition steps (ops : list Op) (s : State) : State :=
  fold_left (λ s op, step op s) ops s.

(** The number of messages of the user in a list. *)
Definition count_user (ms : list Message) : nat :=
  length (filter (λ m, role m = "user") ms).

(** [regenerate_analysis]. *)
Definition regenerate_analysis (selection : option string)
    (analysis_type : string) (s : State) : State * option Exception :=
  perform_ai_analysis selection analysis_type s.

(** One exchange without interference, as [MainWindow.session]. *)
Definition session (ollama_chat : Service) (s : State)
  : list Signal * option Exception * State :=
  if truthy (input_field s) then
    let s1 := send_message s in
    match thread s1 with
    | Some t =>
        let '(sigs, uncaught) := run ollama_chat t (heap s1) in
        (sigs, uncaught,
         MainWindow.deliver_all sigs (MainWindow.thread_finished s1))
    | None => ([], None, s1)
    end
  else ([], None, s).

(** [with open(filename, 'w', encoding='utf-8') as file: file.write(text)]. *)
Definition write_file (os_open : string → option Exception)
    (filename text : string) (fs : files) : files * option Exception :=
  match os_open filename with
  | Some e => (fs, Some e)
  | None => (<[filename := text]> fs, None)
  end.

(** [download_chat].  The module [markdown] is not imported: in the branch
    of HTML the file is opened, which empties it, and the call of
    [markdown.markdown] raises before anything is written. *)
Definition download_chat (os_open : string → option Exception)
    (filename : string) (fs : files) (s : State) : Download :=
  let markdown_content := markdown_content (list_read (messages s) (heap s)) in
  if truthy filename then
    let file_extension := lower (suffix filename) in
    let '(filename, file_extension) :=
      if negb (known_extension file_extension)
      then (filename +:+ ".txt", "txt")
      else (filename, file_extension) in
    if String.eqb file_extension "pdf" then
      mkDownload fs (Some (filename, chat_display s)) None
    else if bool_decide (file_extension ∈ ["txt"; "md"]) then
      let '(fs, e) := write_file os_open filename markdown_content fs in
      mkDownload fs None e
    else if String.eqb file_extension "html" then
      match os_open filename with
      | Some e => mkDownload fs None (Some e)
      | None =>
          mkDownload (<[filename := ""]> fs) None (Some (NameError "markdown"))
      end
    else mkDownload fs None None
  else mkDownload fs None None.

End Quilly.

(** ** The list of models *)

(** The window with its combo box of models: the items of the box, and how
    many times [currentTextChanged] was connected to [model_changed]. *)
Record Window := mkWindow {
  core : State;
  model_combo : list string;
  model_changed_connections : nat
}.

(** [[model["name"] for model in models]]: the first model without a
    name ends it. *)
Fixpoint model_names (models : list (gmap string string))
  : Exception + list string :=
  match models with
  | [] => inr []
  | model :: rest =>
      match model !! "name" with
      | None => inl (KeyError "name")
      | Some name =>
          match model_names rest with
          | inl e => inl e
          | inr names => inr (name :: names)
          end
      end
  end.

(** The two first lines of the [try] of [load_models];
    [ollama_list] is what [ollama.list()] does. *)
Definition listed_model_names
    (ollama_list : Exception + gmap string (list (gmap string string)))
  : Exception + list string :=
  match ollama_list with
  | inl e => inl e
  | inr response =>
      match response !! "models" with
      | None => inl (KeyError "models")
      | Some models => model_names models
      end
  end.

(** [load_models], the same in the three copies. *)
Definition load_models
    (ollama_list : Exception + gmap string (list (gmap string string)))
    (w : Window) : Window :=
  match listed_model_names ollama_list with
  | inr model_names =>
      let w := mkWindow (core w) (model_combo w ++ model_names)
                 (model_changed_connections w) in
      match model_names with
      | first :: _ =>
          mkWindow (set_selected_model first (core w)) (model_combo w)
            (S (model_changed_connections w))
      | [] => w
      end
  | inl e =>
      mkWindow
        (set_message_boxes
           (message_boxes (core w) ++ ["Failed to load models: " +:+ str e])
           (core w))
        (model_combo w) (model_changed_connections w)
  end.

(** The user picks an item of the combo box: each connection calls
    [model_changed]. *)
Definition current_text_changed (text : string) (w : Window) : Window :=
  mkWindow
    (Nat.iter (model_changed_connections w) (MainWindow.model_changed text) (core w))
    (model_combo w) (model_changed_connections w).

(** ** The simulation: [utility/not yet implemented/simulation.py] *)

(** [s.lstrip()], [s.rstrip()] and [s.strip()]. *)
Fixpoint lstrip (s : string) : string :=
  match s with
  | EmptyString => ""
  | String c rest => if isspace c then lstrip rest else s
  end.

Fixpoint rstrip (s : string) : string :=
  match s with
  | EmptyString => ""
  | String c rest =>
      let rest := rstrip rest in
      if isspace c && negb (truthy rest) then "" else String c rest
  end.

Definition strip (s : string) : string := lstrip (rstrip s).

(** Whether every character of [s] is a space. *)
Fixpoint blank (s : string) : bool :=
  match s with
  | EmptyString => true
  | String c rest => isspace c && blank rest
  end.

Module Simulation.

(** One item of the stream of [openai.ChatCompletion.create(..., stream=True)],
    read with [get].  For "choices" and "delta" [None] is a key that is
    missing; for "content" and "finish_reason" it is also a value that is
    [None]. *)
Record Delta := mkDelta { delta_content : option string }.
Record Choice := mkChoice {
  choice_delta : option Delta;
  choice_finish_reason : option string
}.
Record Response := mkResponse { response_choices : option (list Choice) }.

(** The signals of [SimWorker]; [Time] is the type of [time.time()]. *)
Inductive Signal (Time : Type) :=
  | new_message (content : string) (first_chunk : bool) (start_time : Time)
  | complete_message (result : string) (start_time : Time)
  | error (description : string).
Arguments new_message {Time}.
Arguments complete_message {Time}.
Arguments error {Time}.

(** [response.get("choices", [{}])[0]]. *)
Definition first_choice (response : Response) : Exception + Choice :=
  match response_choices response with
  | None => inr (mkChoice None None)
  | Some [] => inl (mkException "IndexError" "list index out of range")
  | Some (choice :: _) => inr choice
  end.

(** [choice.get("delta", {}).get("content")]. *)
Definition content_of (choice : Choice) : option string :=
  match choice_delta choice with
  | None => None
  | Some delta => delta_content delta
  end.

(** The truth value of [x] when [x] is a string or [None]. *)
Definition truthy_opt (x : option string) : bool :=
  match x with
  | None => false
  | Some s => truthy s
  end.

(** The handler of [run]; [format_exc] is [traceback.format_exc()]. *)
Definition failed {Time} (format_exc : Exception → string) (e : Exception)
  : list (Signal Time) :=
  [error ("Error on sim worker: " +:+ str e +:+ ", Trace: " +:+ format_exc e)].

(** The loop of [run] over the stream:
<<
    for response in responses:
        choice = response.get("choices", [{}])[0]
        delta = choice.get("delta", {})
        content = delta.get("content")
        if content:
            result += content
            self.new_message.emit(content, first_chunk, start_time)
            if first_chunk:
                first_chunk = False
        finish_reason = choice.get("finish_reason")
        if finish_reason:
            self.complete_message.emit(result, start_time)
            result = ""
            first_chunk = True
>>
    [raised] is the exception that ends the stream, if any. *)
Fixpoint loop {Time} (format_exc : Exception → string) (start_time : Time)
    (first_chunk : bool) (result : string) (responses : list Response)
    (raised : option Exception) : list (Signal Time) :=
  match responses with
  | [] =>
      match raised with
      | None => []
      | Some e => failed format_exc e
      end
  | response :: rest =>
      match first_choice response with
      | inl e => failed format_exc e
      | inr choice =>
          let content := content_of choice in
          let emitted :=
            if truthy_opt content
            then [new_message (default "" content) first_chunk start_time]
            else [] in
          let result :=
            if truthy_opt content then result +:+ default "" content
            else result in
          let first_chunk :=
            if truthy_opt content then false else first_chunk in
          if truthy_opt (choice_finish_reason choice)
          then emitted ++ complete_message result start_time
                 :: loop format_exc start_time true "" rest raised
          else emitted ++ loop format_exc start_time first_chunk result rest raised
      end
  end.

(** [SimWorker.run]; [settings] is what [load_settings()] does and [create]
    what [openai.ChatCompletion.create] does with the model and the
    messages. *)
Definition run {Time} (format_exc : Exception → string) (start_time : Time)
    (settings : Exception + gmap string string)
    (create : string → list Message
              → Exception + (list Response * option Exception))
    (messages : list Message) : list (Signal Time) :=
  match settings with
  | inl e => failed format_exc e
  | inr settings =>
      match settings !! "api_key" with
      | None => failed format_exc (KeyError "api_key")
      | Some _ =>
          match settings !! "conversation_model" with
          | None => failed format_exc (KeyError "conversation_model")
          | Some model =>
              match create model messages with
              | inl e => failed format_exc e
              | inr (responses, raised) =>
                  loop format_exc start_time true "" responses raised
              end
          end
      end
  end.

(** The dialog: the list [conversation_history], the list that the
    worker holds, the display of the answers, the input field, the progress
    bar and the status message. *)
Record Dialog := mkDialog {
  lists : store;
  conversation_history : loc;
  sim_worker : option loc;
  ai_response_edit : list DisplayOp;
  user_input_edit : string;
  progress_bar_shown : bool;
  status_message : string
}.

(** The two headings, each emoji as the bytes of its UTF-8 form. *)
Definition user_heading : string := LF +:+ "👤 ".
Definition answer_heading : string := LF +:+ LF +:+ "🌐 ".

(** [process_sim_worker]: [SimWorker(self.conversation_history)] keeps the
    list itself, [self.messages = messages], not a copy. *)
Definition process_sim_worker (d : Dialog) : Dialog :=
  mkDialog (lists d) (conversation_history d) (Some (conversation_history d))
    (ai_response_edit d) (user_input_edit d) true (status_message d).

(** [send_user_input]; [user_text] is the argument, [None] or a string. *)
Definition send_user_input (user_text : option string) (d : Dialog) : Dialog :=
  let user_text :=
    if truthy_opt user_text then default "" user_text else user_input_edit d in
  if truthy (strip user_text) then
    let d :=
      mkDialog
        (list_append (conversation_history d) (mkMessage "user" user_text) (lists d))
        (conversation_history d) (sim_worker d)
        (ai_response_edit d ++ [display_append (user_heading +:+ user_text)])
        "" (progress_bar_shown d) (status_message d) in
    process_sim_worker d
  else d.

(** [update_ai_response], the slot of [new_message]: its second parameter,
    named [is_complete_message], receives [first_chunk]. *)
Definition update_ai_response (ai_response : string)
    (is_complete_message : bool) (d : Dialog) : Dialog :=
  if negb (String.eqb (strip ai_response) "") then
    let ai_response :=
      if is_complete_message then answer_heading +:+ ai_response
      else ai_response in
    mkDialog (lists d) (conversation_history d) (sim_worker d)
      (ai_response_edit d ++ [display_insertPlainText ai_response])
      (user_input_edit d) (progress_bar_shown d) (status_message d)
  else d.

(** [update_conversation_history], the slot of [complete_message]. *)
Definition update_conversation_history (full_response : string) (d : Dialog)
  : Dialog :=
  mkDialog
    (list_append (conversation_history d)
       (mkMessage "assistant" (strip full_response)) (lists d))
    (conversation_history d) (sim_worker d) (ai_response_edit d)
    (user_input_edit d) false (status_message d).

(** [handle_worker_error], the slot of [error]. *)
Definition handle_worker_error (error_message : string) (d : Dialog) : Dialog :=
  mkDialog (lists d) (conversation_history d) (sim_worker d)
    (ai_response_edit d) (user_input_edit d) (progress_bar_shown d)
    "An error occurred. Please view logs.".

(** The slot each signal is connected to. *)
Definition deliver {Time} (sig : Signal Time) (d : Dialog) : Dialog :=
  match sig with
  | new_message content first_chunk _ => update_ai_response content first_chunk d
  | complete_message result _ => update_conversation_history result d
  | error description => handle_worker_error description d
  end.

Definition deliver_all {Time} (sigs : list (Signal Time)) (d : Dialog) : Dialog :=
  fold_left (λ d sig, deliver sig d) sigs d.

(** What a well-formed run of signals is: [result] is the text emitted
    since the last complete message, and [first_chunk] tells whether no
    text was emitted since then. *)
Fixpoint segmented {Time} (start_time : Time) (first_chunk : bool)
    (result : string) (sigs : list (Signal Time)) : Prop :=
  match sigs with
  | [] => True
  | new_message content first start :: rest =>
      content ≠ "" ∧ first = first_chunk ∧ start = start_time ∧
      segmented start_time false (result +:+ content) rest
  | complete_message text start :: rest =>
      text = result ∧ start = start_time ∧ segmented start_time true "" rest
  | error _ :: rest => rest = []
  end.

(** The texts of the signals of one kind, in order. *)
Definition streamed {Time} (sigs : list (Signal Time)) : list string :=
  omap (λ sig, match sig with new_message content _ _ => Some content
                            | _ => None end) sigs.
Definition completed {Time} (sigs : list (Signal Time)) : list string :=
  omap (λ sig, match sig with complete_message text _ => Some text
                            | _ => None end) sigs.

(** A response with a content and no finish reason, and a response with a
    finish reason and no content. *)
Definition content_response (content : string) : Response :=
  mkResponse (Some [mkChoice (Some (mkDelta (Some content))) None]).
Definition finish_response (finish_reason : string) : Response :=
  mkResponse (Some [mkChoice (Some (mkDelta None)) (Some finish_reason)]).

(** What the display receives for the contents of one answer: the first
    content with the heading, the others as they are, and none of those
    that are spaces only. *)
Definition shown (contents : list string) : list DisplayOp :=
  match contents with
  | [] => []
  | first :: rest =>
      (if String.eqb (strip first) "" then []
       else [display_insertPlainText (answer_heading +:+ first)])
      ++ map display_insertPlainText
           (filter (λ content, strip content ≠ "") rest)
  end.

End Simulation.

(** ** Properties of the specification *)

(** What the specification says of [trim] in a state: the messages kept
    are at least one, they are a suffix of the messages before, and their
    contents sum to the budget at most unless the last message alone
    exceeds the budget, and then it is the only one kept. *)
Definition trim_as_specified (s : State) : Prop :=
  ∃ M K,
    conversation s = Some M ∧
    conversation (MainWindow.trim_messages s) = Some K ∧
    1 ≤ length K ∧
    (∃ dropped, M = dropped ++ K) ∧
    ∀ m, last M = Some m →
      ((len (content m) ≤ context_length s)%Z →
         (total_length K ≤ context_length s)%Z) ∧
      ((context_length s < len (content m))%Z → K = [m]).

(** What the specification says of the messages of the user: no step of
    the window other than a send adds one to the conversation. *)
Definition only_send_appends_user_messages : Prop :=
  ∀ (op : Quilly.Op) (s : State) (M M' : list Message),
    conversation s = Some M →
    conversation (Quilly.step op s) = Some M' →
    Quilly.count_user M < Quilly.count_user M' →
    op = Quilly.op_send.

(** Every message of the user has a content that is not empty. *)
Abbreviation user_contents_nonempty :=
  (Forall (λ m : Message, role m = "user" → content m ≠ "")).

(** [s * n]: the string [s] repeated. *)
Definition string_repeat (s : string) (n : Z) : string :=
  Nat.iter (Z.to_nat n) (String.append s) "".

(** ** Abbreviations for the statements *)

(** The roles the window gives to messages. *)
Definition role_known (m : Message) : Prop :=
  role m = "user" ∨ role m = "assistant".

(** The prompt that [perform_ai_analysis] builds. *)
Definition analysis_prompt (analysis_type text : string) : string :=
  "Please perform a " +:+ analysis_type
  +:+ " on the following text: '" +:+ text +:+ "'".

(** The text that [perform_ai_analysis] analyses, if any: the selection,
    or else the last message of the user when it is not empty. *)
Definition analysed_text (selection : option string) (s : State) : option string :=
  match selection with
  | Some selected => Some selected
  | None =>
      if truthy (Quilly.get_last_user_message s)
      then Some (Quilly.get_last_user_message s) else None
  end.

(** The file that [download_chat] writes or prints to: the file chosen,
    or the file chosen with [".txt"] added when its suffix is not known. *)
Definition download_target (filename : string) : string :=
  if known_extension (lower (suffix filename))
  then filename else filename +:+ ".txt".

(** The window refers to a list that exists, and the worker it holds, if
    any, refers to another list that exists. *)
Definition lists_apart (s : State) : Prop :=
  is_Some (conversation s) ∧
  ∀ t, thread s = Some t →
       ResponseThread.messages t ≠ messages s ∧
       is_Some (heap s !! ResponseThread.messages t).

(** ** Tactics *)

(** A step that leaves the conversation [M] as it is. *)
Ltac same_conversation M :=
  exists M; split; [done | split; [done | lia]].

(** Case analysis on the worker held by [self.thread]. *)
Ltac case_thread s :=
  let t := fresh "t" in
  destruct (thread s) as [t|]; [destruct (ResponseThread.isRunning t) |].

(** * Facts *)

(** ** Strings *)

Lemma append_cons (c : Ascii.ascii) (s1 s2 : string) :
  String c s1 +:+ s2 = String c (s1 +:+ s2).
Proof. reflexivity. Qed.

Lemma append_assoc (s1 s2 s3 : string) :
  (s1 +:+ s2) +:+ s3 = s1 +:+ (s2 +:+ s3).
Proof.
  induction s1 as [|c s1 IH]; [done |].
  rewrite !append_cons. by f_equal.
Qed.

Lemma append_empty_r (s : string) : s +:+ "" = s.
Proof.
  induction s as [|c s IH]; [done |].
  rewrite append_cons. by f_equal.
Qed.

Lemma truthy_true (s : string) : truthy s = true ↔ s ≠ "".
Proof. destruct s; simpl; split; intros; congruence. Qed.

Lemma truthy_false (s : string) : truthy s = false ↔ s = "".
Proof. destruct s; simpl; split; intros; congruence. Qed.

Lemma truthy_append_l (s1 s2 : string) : truthy s1 = true → truthy (s1 +:+ s2) = true.
Proof. by destruct s1. Qed.

Lemma len_nonneg (s : string) : (0 ≤ len s)%Z.
Proof. unfold len. lia. Qed.

(** *** Facts about the sum and the loop *)

Lemma fold_total_shift (messages : list Message) (a : Z) :
  fold_left (λ acc msg, acc + len (content msg))%Z messages a
  = (a + total_length messages)%Z.
Proof.
  unfold total_length. revert a.
  induction messages as [|m ms IH]; intros a; simpl; [lia |].
  rewrite (IH (a + len (content m))%Z), (IH (0 + len (content m))%Z). lia.
Qed.

Lemma total_length_cons (m : Message) (ms : list Message) :
  total_length (m :: ms) = (len (content m) + total_length ms)%Z.
Proof. unfold total_length at 1. simpl. rewrite fold_total_shift. lia. Qed.

Lemma total_length_app (ms1 ms2 : list Message) :
  total_length (ms1 ++ ms2) = (total_length ms1 + total_length ms2)%Z.
Proof.
  induction ms1 as [|m ms1 IH]; simpl; [done |].
  rewrite !total_length_cons, IH. lia.
Qed.

Lemma total_length_nonneg (ms : list Message) : (0 ≤ total_length ms)%Z.
Proof.
  induction ms as [|m ms IH]; [done |].
  rewrite total_length_cons. pose proof (len_nonneg (content m)). lia.
Qed.

Lemma trim_list_cons (B : Z) (m : Message) (ms : list Message) :
  trim_list B (m :: ms)
  = if (total_length (m :: ms) >? B)%Z && (1 <? length (m :: ms))%nat
    then trim_list B ms else m :: ms.
Proof.
  unfold trim_list. simpl trim_loop.
  destruct (_ && _); [| done].
  f_equal. rewrite total_length_cons. lia.
Qed.

(** The loop stops as soon as the budget is met or one message is left. *)
Lemma trim_list_fixed (B : Z) (ms : list Message) :
  (total_length ms ≤ B)%Z ∨ length ms ≤ 1 → trim_list B ms = ms.
Proof.
  destruct ms as [|m ms]; [done |]. intros H.
  rewrite trim_list_cons.
  destruct (Z.gtb_spec (total_length (m :: ms)) B) as [Hgt|Hle],
           (Nat.ltb_spec 1 (length (m :: ms))) as [Hlen|Hlen]; try done.
  lia.
Qed.

(** What the loop leaves: a suffix, which meets the budget or is a single
    message, and which is empty only when the list was. *)
Lemma trim_list_suffix (B : Z) (ms : list Message) :
  ∃ dropped, ms = dropped ++ trim_list B ms.
Proof.
  induction ms as [|m ms [d IH]]; [by exists [] |].
  rewrite trim_list_cons. destruct (_ && _).
  - exists (m :: d). simpl. by f_equal.
  - by exists [].
Qed.

Lemma trim_list_stops (B : Z) (ms : list Message) :
  (total_length (trim_list B ms) ≤ B)%Z ∨ length (trim_list B ms) ≤ 1.
Proof.
  induction ms as [|m ms IH]; [right; simpl; lia |].
  rewrite trim_list_cons.
  destruct (Z.gtb_spec (total_length (m :: ms)) B) as [Hgt|Hle],
           (Nat.ltb_spec 1 (length (m :: ms))) as [Hlen|Hlen];
    cbn [andb]; auto.
Qed.

Lemma trim_list_nonempty (B : Z) (ms : list Message) :
  ms ≠ [] → trim_list B ms ≠ [].
Proof.
  induction ms as [|m ms IH]; [done |]. intros _.
  rewrite trim_list_cons.
  destruct (Nat.ltb_spec 1 (length (m :: ms))) as [Hlen|Hlen];
    rewrite ?andb_false_r; [| done].
  destruct (_ >? _)%Z; simpl; [| done].
  apply IH. destruct ms; simpl in *; [lia | done].
Qed.

Lemma trim_list_idempotent (B : Z) (ms : list Message) :
  trim_list B (trim_list B ms) = trim_list B ms.
Proof. apply trim_list_fixed, trim_list_stops. Qed.

(** A suffix of a list that ends with [x] is empty or ends with [x]. *)
Lemma suffix_snoc {A} (dropped kept ms : list A) (x : A) :
  ms ++ [x] = dropped ++ kept → kept ≠ [] →
  ∃ kept', kept = kept' ++ [x] ∧ ms = dropped ++ kept'.
Proof.
  intros Heq Hne.
  destruct (exists_last Hne) as (kept' & y & ->).
  rewrite app_assoc in Heq. apply app_inj_tail in Heq as [-> ->]. eauto.
Qed.

Lemma trim_list_last (B : Z) (ms : list Message) :
  ms ≠ [] → last (trim_list B ms) = last ms.
Proof.
  intros Hne.
  destruct (trim_list_suffix B ms) as [d Hd].
  pose proof (trim_list_nonempty B ms Hne) as HK.
  destruct (exists_last HK) as (k & y & Hk).
  rewrite Hd at 2. rewrite Hk, app_assoc, !last_snoc. done.
Qed.

(** ** The state after [trim_messages] *)

Lemma conversation_trim_messages (s : State) :
  conversation (MainWindow.trim_messages s)
  = trim_list (context_length s) <$> conversation s.
Proof. unfold conversation. simpl. apply lookup_alter_eq. Qed.

(** C2, amended.  For every budget and every conversation that is not
    empty, [trim_messages] keeps at least one message; the messages kept are
    a suffix of the conversation, in the same order; their contents sum to
    the budget at most, unless the last message alone exceeds the budget,
    and then that message alone is kept. *)
Theorem trim_messages_keeps_fitting_suffix (s : State) (M : list Message) :
  conversation s = Some M → M ≠ [] → trim_as_specified s.
Proof.
  intros Hc Hne. set (B := context_length s).
  exists M, (trim_list B M). split; [done |].
  split; [by rewrite conversation_trim_messages, Hc |].
  pose proof (trim_list_nonempty B M Hne) as HK.
  pose proof (trim_list_last B M Hne) as Hlast.
  split; [destruct (trim_list B M); simpl; [done | lia] |].
  split; [apply trim_list_suffix |].
  intros m Hm. rewrite Hm in Hlast.
  destruct (exists_last HK) as (k & y & Hk).
  rewrite Hk, last_snoc in Hlast. injection Hlast as ->.
  pose proof (trim_list_stops B M) as Hstop. rewrite Hk in Hstop |- *.
  rewrite total_length_app, total_length_cons in Hstop |- *.
  rewrite length_app in Hstop. simpl in Hstop.
  pose proof (total_length_nonneg k). change (total_length []) with 0%Z in *.
  split; intros Hm'.
  - destruct Hstop as [Hfit|Hone]; [lia |].
    destruct k; simpl in *; [| lia].
    change (total_length []) with 0%Z. lia.
  - destruct Hstop as [Hfit|Hone]; [lia |].
    destruct k; simpl in *; [done | lia].
Qed.

(** The theorem holds of a conversation of two messages over the budget. *)
Lemma trim_messages_keeps_fitting_suffix_witness :
  trim_as_specified
    (set_context_length 10
       (MainWindow.handle_response_finished
          (set_assistant_response "678901234567"
             (messages_append (mkMessage "user" "12345") MainWindow.__init__)))).
Proof.
  eapply trim_messages_keeps_fitting_suffix; [vm_compute; reflexivity | done].
Defined.

(** C2 as stated fails for the empty conversation: nothing is kept. *)
Lemma trim_messages_empty_conversation :
  conversation MainWindow.__init__ = Some [] ∧
  conversation (MainWindow.trim_messages MainWindow.__init__) = Some [] ∧
  ¬ trim_as_specified MainWindow.__init__.
Proof.
  split; [by vm_compute |]. split; [by vm_compute |].
  intros (M & K & HM & HK & Hlen & _).
  assert (conversation (MainWindow.trim_messages MainWindow.__init__) = Some [])
    as HK' by (by vm_compute).
  rewrite HK' in HK. injection HK as <-. simpl in Hlen. lia.
Qed.

(** C5.  [trim_messages] is a function of the state, and applying it twice
    with nothing in between gives the state that applying it once gives. *)
Theorem trim_messages_idempotent (s : State) :
  MainWindow.trim_messages (MainWindow.trim_messages s)
  = MainWindow.trim_messages s.
Proof.
  unfold MainWindow.trim_messages, set_heap. simpl. f_equal.
  apply map_eq. intros l.
  destruct (decide (messages s = l)) as [<-|Hne].
  - rewrite !lookup_alter_eq.
    destruct (heap s !! messages s) as [ms|]; simpl; [| done].
    by rewrite trim_list_idempotent.
  - by rewrite !lookup_alter_ne.
Qed.

(** The scenario of the specification: budget 10, a user message of 5
    characters and an answer of 12; the first message is removed and the
    answer stays although it is longer than the budget. *)
Example trim_messages_scenario :
  trim_list 10 [mkMessage "user" "12345"; mkMessage "assistant" "678901234567"]
  = [mkMessage "assistant" "678901234567"].
Proof. reflexivity. Qed.

(** ** Sending nothing *)

(** C6.  With an empty input field, [send_message] returns the state it was
    given, in the three copies: the conversation, the worker, the display
    and every other attribute are as before. *)
Theorem send_message_empty_prompt (s : State) :
  input_field s = "" →
  MainWindow.send_message s = s ∧ Quilly.send_message s = s.
Proof.
  intros Hempty. unfold MainWindow.send_message, Quilly.send_message.
  by rewrite Hempty.
Qed.

Lemma send_message_empty_prompt_witness :
  input_field MainWindow.__init__ = "" ∧
  MainWindow.send_message MainWindow.__init__ = MainWindow.__init__ ∧
  Quilly.send_message MainWindow.__init__ = MainWindow.__init__.
Proof.
  split; [reflexivity |].
  apply (send_message_empty_prompt MainWindow.__init__). reflexivity.
Defined.

(** ** Stopping *)

Lemma lookup_list_new (contents : list Message) (h : store) :
  (list_new contents h).2 !! (list_new contents h).1 = Some contents.
Proof. unfold list_new. simpl. apply lookup_insert_eq. Qed.

Lemma lookup_list_new_old (contents : list Message) (h : store) (l : loc) :
  is_Some (h !! l) →
  (list_new contents h).1 ≠ l ∧ (list_new contents h).2 !! l = h !! l.
Proof.
  intros Hl. unfold list_new. simpl.
  assert (fresh (dom h) ≠ l) as Hne.
  { intros <-. apply elem_of_dom in Hl. by apply is_fresh in Hl. }
  split; [done |]. by apply lookup_insert_ne.
Qed.

(** C7.  In every state [stop_chat] leaves an empty conversation and a
    cleared display.  Without a running worker the step that ends the
    worker does nothing: [self.thread] is as before.  With one, the worker is
    no longer running afterwards.  [restart_chat] does the same. *)
Theorem stop_chat_clears (s : State) :
  conversation (MainWindow.stop_chat s) = Some [] ∧
  chat_display (MainWindow.stop_chat s) = [] ∧
  (match thread s with
   | Some t => ResponseThread.isRunning t = false
   | None => True
   end → thread (MainWindow.stop_chat s) = thread s) ∧
  (∀ t, thread (MainWindow.stop_chat s) = Some t →
        ResponseThread.isRunning t = false) ∧
  MainWindow.restart_chat s = MainWindow.stop_chat s.
Proof.
  unfold MainWindow.restart_chat, MainWindow.stop_chat, conversation.
  destruct (thread s) as [t|] eqn:Ht; [destruct (ResponseThread.isRunning t) eqn:Hr |];
    simpl; rewrite ?Ht; repeat split; try done;
    try apply lookup_insert_eq; try (intros t' [= <-]; done).
Qed.

(** ** The last message of the user *)

Lemma first_user_skip (skipped rest : list Message) (m : Message) :
  Forall (λ m', role m' ≠ "user") skipped → role m = "user" →
  Quilly.first_user (skipped ++ m :: rest) = content m.
Proof.
  intros Hskip Hm. induction Hskip as [|m' skipped Hm' _ IH]; simpl.
  - by rewrite (proj2 (String.eqb_eq _ _) Hm).
  - by rewrite (proj2 (String.eqb_neq _ _) Hm').
Qed.

Lemma first_user_none (ms : list Message) :
  Forall (λ m, role m ≠ "user") ms → Quilly.first_user ms = "".
Proof.
  induction 1 as [|m ms Hm _ IH]; simpl; [done |].
  by rewrite (proj2 (String.eqb_neq _ _) Hm).
Qed.

(** C8.  [get_last_user_message] returns the content of the message of the
    user after which no message of the user follows, the empty string when
    the conversation has no message of the user, and ["c"] on the
    conversation user "a", assistant "b", user "c". *)
Theorem get_last_user_message_spec (s : State) (M : list Message) :
  conversation s = Some M →
  (∀ before m after,
     M = before ++ m :: after → role m = "user" →
     Forall (λ m', role m' ≠ "user") after →
     Quilly.get_last_user_message s = content m) ∧
  (Forall (λ m, role m ≠ "user") M → Quilly.get_last_user_message s = "") ∧
  (M = [mkMessage "user" "a"; mkMessage "assistant" "b"; mkMessage "user" "c"] →
   Quilly.get_last_user_message s = "c").
Proof.
  intros Hc. unfold Quilly.get_last_user_message, list_read.
  unfold conversation in Hc. rewrite Hc. simpl.
  split; [| split].
  - intros before m after -> Hm Hafter.
    rewrite rev_app_distr. simpl. rewrite <- app_assoc. simpl.
    apply first_user_skip; [| done]. by apply Forall_rev.
  - intros HM. apply first_user_none. by apply Forall_rev.
  - by intros ->.
Qed.

Lemma get_last_user_message_spec_witness :
  Quilly.get_last_user_message
    (Quilly.steps
       [Quilly.op_input "a"; Quilly.op_send;
        Quilly.op_signal (response_chunk_received "b");
        Quilly.op_signal (response_finished "b");
        Quilly.op_input "c"; Quilly.op_send] Quilly.__init__) = "c".
Proof.
  eapply get_last_user_message_spec; [by vm_compute | reflexivity].
Defined.

(** ** The worker *)

Lemma concat_fragments_cons (f : string) (F : list string) :
  concat_fragments (f :: F) = f +:+ concat_fragments F.
Proof. reflexivity. Qed.

(** The signals of [run]: one chunk signal for each fragment, in order,
    then one last signal, which tells the end and carries the text
    accumulated, or tells the exception and carries [str(e)]. *)
Lemma run_loop_signals (response : string) (F : list string)
    (raised : option Exception) :
  ResponseThread.run_loop response F raised
  = map response_chunk_received F
    ++ [match raised with
        | None => response_finished (response +:+ concat_fragments F)
        | Some e => error_occurred (str e)
        end].
Proof.
  revert response. induction F as [|f F IH]; intros response.
  - simpl. destruct raised; [done |]. by rewrite append_empty_r.
  - cbn [ResponseThread.run_loop map]. rewrite IH, concat_fragments_cons.
    rewrite <- app_comm_cons. destruct raised; [done |].
    by rewrite append_assoc.
Qed.

(** ** A send *)

(** The state after a send of a prompt that is not empty. *)
Lemma send_message_effect (s : State) (M : list Message) :
  conversation s = Some M → truthy (input_field s) = true →
  let K := trim_list (context_length s)
             (M ++ [mkMessage "user" (input_field s)]) in
  let s1 := MainWindow.send_message s in
  ∃ lw,
    lw ≠ messages s ∧
    thread s1 = Some (ResponseThread.mk (selected_model s) lw true) ∧
    heap s1 !! lw = Some K ∧
    conversation s1 = Some K ∧
    messages s1 = messages s ∧
    assistant_response s1 = "" ∧
    chat_display s1
    = chat_display s ++ [display_append ("<b>User:</b> " +:+ input_field s);
                         display_append "<b>Assistant:</b> "] ∧
    input_field s1 = "" ∧
    selected_model s1 = selected_model s ∧
    context_length s1 = context_length s ∧
    message_boxes s1 = message_boxes s.
Proof.
  intros Hc Hp K s1. unfold conversation in Hc.
  set (u := mkMessage "user" (input_field s)) in *.
  set (h2 := alter (trim_list (context_length s)) (messages s)
               (list_append (messages s) u (heap s))).
  assert (h2 !! messages s = Some K) as Hh2.
  { unfold h2, list_append. rewrite !lookup_alter_eq, Hc. done. }
  assert (s1 = set_thread
                 (Some (ResponseThread.mk (selected_model s)
                          (list_new K h2).1 true))
                 (set_heap (list_new K h2).2
                    (set_chat_display
                       (chat_display s ++
                          [display_append ("<b>User:</b> " +:+ input_field s);
                           display_append "<b>Assistant:</b> "])
                       (set_assistant_response ""
                          (set_input_field "" s))))) as ->.
  { unfold s1, MainWindow.send_message. rewrite Hp.
    unfold MainWindow.start_thread, ResponseThread.__init__, list_copy, list_read.
    cbn -[list_new trim_list]. fold u. fold h2. rewrite Hh2.
    cbn -[list_new trim_list]. destruct (list_new K h2) as [lw h3].
    unfold set_thread, set_heap. cbn -[trim_list]. by rewrite <- app_assoc. }
  destruct (lookup_list_new_old K h2 (messages s)) as [Hne Hold]; [by eexists |].
  exists (list_new K h2).1. unfold conversation.
  cbn -[list_new trim_list]. rewrite lookup_list_new, Hold, Hh2. done.
Qed.

(** The messages kept by the trim of a send end with the new message. *)
Lemma trim_list_snoc (B : Z) (M : list Message) (u : Message) :
  ∃ dropped kept, M = dropped ++ kept ∧ trim_list B (M ++ [u]) = kept ++ [u].
Proof.
  destruct (trim_list_suffix B (M ++ [u])) as [d Hd].
  destruct (suffix_snoc d (trim_list B (M ++ [u])) M u Hd) as (k & Hk & HM).
  - apply trim_list_nonempty. by destruct M.
  - eauto.
Qed.

(** ** The handling of signals *)

Lemma deliver_all_app (sigs1 sigs2 : list Signal) (s : State) :
  MainWindow.deliver_all (sigs1 ++ sigs2) s
  = MainWindow.deliver_all sigs2 (MainWindow.deliver_all sigs1 s).
Proof. apply fold_left_app. Qed.

(** Chunk signals add to the accumulator and to the display, and to
    nothing else. *)
Lemma deliver_all_chunks (F : list string) (s : State) :
  MainWindow.deliver_all (map response_chunk_received F) s
  = set_chat_display (chat_display s ++ map display_insertPlainText F)
      (set_assistant_response (assistant_response s +:+ concat_fragments F) s).
Proof.
  revert s. induction F as [|f F IH]; intros s.
  - destruct s. unfold set_chat_display, set_assistant_response. simpl.
    by rewrite append_empty_r, app_nil_r.
  - change (MainWindow.deliver_all (map response_chunk_received (f :: F)) s)
      with (MainWindow.deliver_all (map response_chunk_received F)
              (MainWindow.handle_response_chunk f s)).
    rewrite IH. unfold set_chat_display, set_assistant_response. simpl.
    by rewrite append_assoc, <- app_assoc.
Qed.

(** ** One exchange *)

(** What a session is made of: the worker of the send reads the messages
    kept by the trim, and its signals are handled after the send. *)
Lemma session_effect (ollama_chat : Service) (s : State) (M : list Message) :
  conversation s = Some M → truthy (input_field s) = true →
  let K := trim_list (context_length s)
             (M ++ [mkMessage "user" (input_field s)]) in
  let gen := ollama_generator ollama_chat (selected_model s) K in
  let sigs := ResponseThread.run_loop "" (yielded gen) (raised gen) in
  ∃ t, thread (MainWindow.send_message s) = Some t ∧
    MainWindow.session ollama_chat s
    = (sigs, MainWindow.deliver_all sigs
               (set_thread (Some (ResponseThread.stopped t))
                  (MainWindow.send_message s))).
Proof.
  intros Hc Hp K gen sigs.
  destruct (send_message_effect s M Hc Hp) as (lw & _ & Ht & Hlw & _).
  eexists. split; [exact Ht |].
  unfold MainWindow.session, MainWindow.thread_finished. rewrite Hp, Ht.
  unfold ResponseThread.run, list_read. simpl. by rewrite Hlw.
Qed.

Lemma conversation_deliver_chunks (F : list string) (s : State) :
  conversation (MainWindow.deliver_all (map response_chunk_received F) s)
  = conversation s.
Proof. by rewrite deliver_all_chunks. Qed.

(** C1.  When the generator yields the fragments [F] and then ends, the
    worker emits one chunk signal for each fragment, in order, and then one
    finished signal, which carries the text of all fragments; and the
    conversation, which after the send ended with the new message of the
    user, ends after the session with that message followed by one
    message of the assistant, whose content is the text of all fragments.
    The messages before them are a suffix of the conversation before the
    send. *)
Theorem session_appends_user_then_assistant
    (ollama_chat : Service) (s : State) (M : list Message) (F : list string) :
  conversation s = Some M →
  input_field s ≠ "" →
  ollama_generator ollama_chat (selected_model s)
    (trim_list (context_length s) (M ++ [mkMessage "user" (input_field s)]))
  = mkFragments F None →
  ∃ dropped kept,
    M = dropped ++ kept ∧
    (MainWindow.session ollama_chat s).1
    = map response_chunk_received F ++ [response_finished (concat_fragments F)] ∧
    conversation (MainWindow.send_message s)
    = Some (kept ++ [mkMessage "user" (input_field s)]) ∧
    conversation (MainWindow.session ollama_chat s).2
    = Some (kept ++ [mkMessage "user" (input_field s);
                     mkMessage "assistant" (concat_fragments F)]).
Proof.
  intros Hc Hp%truthy_true Hgen.
  destruct (session_effect ollama_chat s M Hc Hp) as (t & Ht & Hs).
  destruct (send_message_effect s M Hc Hp)
    as (lw & _ & _ & _ & Hc1 & _ & Hacc & _).
  destruct (trim_list_snoc (context_length s) M
              (mkMessage "user" (input_field s))) as (d & k & HM & Hk).
  rewrite Hgen in Hs. cbn [yielded raised] in Hs.
  rewrite run_loop_signals in Hs. rewrite Hs, Hk in *. clear Hs.
  exists d, k. split; [done |]. split; [done |]. split; [done |].
  cbn [snd]. rewrite deliver_all_app, deliver_all_chunks.
  unfold conversation in *. simpl. unfold list_append.
  rewrite lookup_alter_eq, Hc1, Hacc. simpl.
  by rewrite <- app_assoc.
Qed.

(** The scenario of the specification: "hello" is sent to an empty
    conversation and the service answers "Hi", " there", "!". *)
Lemma session_appends_user_then_assistant_witness :
  let chat : Service := λ _ _,
    mkChatStream [mkChunk (mkMessage "assistant" "Hi");
                  mkChunk (mkMessage "assistant" " there");
                  mkChunk (mkMessage "assistant" "!")] None in
  let s := set_input_field "hello" MainWindow.__init__ in
  (MainWindow.session chat s).1
  = [response_chunk_received "Hi"; response_chunk_received " there";
     response_chunk_received "!"; response_finished "Hi there!"] ∧
  conversation (MainWindow.session chat s).2
  = Some [mkMessage "user" "hello"; mkMessage "assistant" "Hi there!"].
Proof.
  intros chat s.
  destruct (session_appends_user_then_assistant chat s [] ["Hi"; " there"; "!"])
    as (d & k & Hdk & Hsigs & _ & Hconv);
    [by vm_compute | done | reflexivity |].
  symmetry in Hdk. apply app_eq_nil in Hdk as [-> ->].
  split; [exact Hsigs | exact Hconv].
Defined.

(** ** The trim of a send, in [quilLlama.py] and [streamchatContextAdder.py] *)

(** A send of a prompt that is not empty does its steps in the order of
    the source, and the running worker is built after the trim: its copy of
    the messages and the conversation are both the conversation before
    with the new message, trimmed; this meets the budget or is one message.
    The display has received the message of the user and the heading of
    the answer, and the accumulator is empty. *)
Theorem send_message_trims_before_start (s : State) (M : list Message) :
  conversation s = Some M →
  input_field s ≠ "" →
  let prompt := input_field s in
  let K := trim_list (context_length s) (M ++ [mkMessage "user" prompt]) in
  MainWindow.send_message s
  = MainWindow.start_thread
      (MainWindow.trim_messages
         (chat_display_append "<b>Assistant:</b> "
            (set_assistant_response ""
               (set_input_field ""
                  (display_message "user" prompt
                     (messages_append (mkMessage "user" prompt) s)))))) ∧
  ∃ t,
    thread (MainWindow.send_message s) = Some t ∧
    ResponseThread.isRunning t = true ∧
    ResponseThread.model_name t = selected_model s ∧
    heap (MainWindow.send_message s) !! ResponseThread.messages t = Some K ∧
    conversation (MainWindow.send_message s) = Some K ∧
    ((total_length K ≤ context_length s)%Z ∨ length K = 1) ∧
    assistant_response (MainWindow.send_message s) = "" ∧
    chat_display (MainWindow.send_message s)
    = chat_display s ++ [display_append ("<b>User:</b> " +:+ prompt);
                         display_append "<b>Assistant:</b> "].
Proof.
  intros Hc Hp%truthy_true prompt K.
  split; [unfold MainWindow.send_message; by rewrite Hp |].
  destruct (send_message_effect s M Hc Hp)
    as (lw & _ & Ht & Hlw & Hc1 & _ & Hacc & Hdisp & _).
  eexists. split; [exact Ht |]. simpl.
  repeat split; try done.
  destruct (trim_list_stops (context_length s) (M ++ [mkMessage "user" prompt]))
    as [Hfit|Hone]; [by left | right].
  pose proof (trim_list_nonempty (context_length s)
                (M ++ [mkMessage "user" prompt])) as Hne.
  fold K in Hone, Hne. destruct K; [| simpl in *; lia].
  exfalso. apply Hne; [by destruct M | done].
Qed.

(** ** An exception of the stream, in [quilLlama.py] and
    [streamchatContextAdder.py] *)

(** When the generator raises [e] after the fragments [F], the worker
    emits the chunk signals of [F], in order, and then one error signal
    that carries [str(e)]; no finished signal is among them; the
    conversation after the handling of the signals is the conversation at
    the start of the worker, which ends with the message of the user;
    one error box is shown. *)
Theorem session_error_keeps_conversation
    (ollama_chat : Service) (s : State) (M : list Message) (F : list string)
    (e : Exception) :
  conversation s = Some M →
  input_field s ≠ "" →
  ollama_generator ollama_chat (selected_model s)
    (trim_list (context_length s) (M ++ [mkMessage "user" (input_field s)]))
  = mkFragments F (Some e) →
  (MainWindow.session ollama_chat s).1
  = map response_chunk_received F ++ [error_occurred (str e)] ∧
  (∀ r, response_finished r ∉ (MainWindow.session ollama_chat s).1) ∧
  conversation (MainWindow.session ollama_chat s).2
  = conversation (MainWindow.send_message s) ∧
  (∃ kept, conversation (MainWindow.session ollama_chat s).2
           = Some (kept ++ [mkMessage "user" (input_field s)])) ∧
  message_boxes (MainWindow.session ollama_chat s).2
  = message_boxes s ++ ["An error occurred: " +:+ str e].
Proof.
  intros Hc Hp%truthy_true Hgen.
  destruct (session_effect ollama_chat s M Hc Hp) as (t & Ht & Hs).
  destruct (send_message_effect s M Hc Hp)
    as (lw & _ & _ & _ & Hc1 & _ & _ & _ & _ & _ & _ & Hbox).
  destruct (trim_list_snoc (context_length s) M
              (mkMessage "user" (input_field s))) as (d & k & HM & Hk).
  rewrite Hgen in Hs. cbn [yielded raised] in Hs.
  rewrite run_loop_signals in Hs. rewrite Hs. clear Hs. cbn [fst snd].
  rewrite deliver_all_app, deliver_all_chunks.
  split; [done |]. split.
  { intros r [Hin|Hin]%elem_of_app.
    - apply list_elem_of_fmap in Hin as (f & Hf & _). discriminate.
    - apply list_elem_of_singleton in Hin. discriminate. }
  split; [done |]. split; [| by rewrite <- Hbox].
  exists k. rewrite <- Hk, <- Hc1. done.
Qed.

(** ** The copy of the worker *)

(** The construction of a worker writes to a new list object only. *)
Lemma start_thread_keeps_other_lists (lw : loc) (snapshot : list Message)
    (s : State) :
  heap s !! lw = Some snapshot → messages s ≠ lw →
  heap (MainWindow.start_thread s) !! lw = Some snapshot ∧
  messages (MainWindow.start_thread s) ≠ lw.
Proof.
  intros Hlw Hne.
  destruct (lookup_list_new_old (list_read (messages s) (heap s)) (heap s) lw)
    as [Hfresh Hold]; [by eexists |].
  unfold MainWindow.start_thread, ResponseThread.__init__, list_copy.
  destruct (list_new _ (heap s)) as [l h3]. simpl in *. by rewrite Hold.
Qed.

Lemma stop_chat_keeps_other_lists (lw : loc) (snapshot : list Message)
    (s : State) :
  heap s !! lw = Some snapshot → messages s ≠ lw →
  heap (MainWindow.stop_chat s) !! lw = Some snapshot ∧
  messages (MainWindow.stop_chat s) ≠ lw.
Proof.
  intros Hlw Hne. unfold MainWindow.stop_chat.
  destruct (lookup_list_new_old [] (heap s) lw) as [Hfresh Hold]; [by eexists |].
  unfold list_new in *. simpl in Hfresh, Hold.
  case_thread s; simpl; by rewrite Hold.
Qed.

(** No step of the window writes to a list object other than the one
    [self.messages] refers to, or a new one. *)
Lemma step_keeps_other_lists (lw : loc) (snapshot : list Message)
    (op : MainWindow.Op) (s : State) :
  heap s !! lw = Some snapshot → messages s ≠ lw →
  heap (MainWindow.step op s) !! lw = Some snapshot ∧
  messages (MainWindow.step op s) ≠ lw.
Proof.
  intros Hlw Hne.
  destruct op as [text| | | |text|value|sig|]; simpl; try done.
  - (* send *)
    unfold MainWindow.send_message.
    destruct (truthy (input_field s)); [| done].
    apply start_thread_keeps_other_lists; [| done].
    unfold MainWindow.trim_messages, display_message. simpl.
    unfold list_append. rewrite !lookup_alter_ne by done. done.
  - by apply stop_chat_keeps_other_lists.
  - by apply stop_chat_keeps_other_lists.
  - (* a signal *)
    destruct sig as [chunk|response|description]; simpl; try done.
    unfold list_append. rewrite lookup_alter_ne by done. done.
  - (* the end of the worker *)
    unfold MainWindow.thread_finished. by destruct (thread s).
Qed.

Lemma steps_keep_other_lists (lw : loc) (snapshot : list Message)
    (ops : list MainWindow.Op) (s : State) :
  heap s !! lw = Some snapshot → messages s ≠ lw →
  heap (MainWindow.steps ops s) !! lw = Some snapshot.
Proof.
  revert s. induction ops as [|op ops IH]; intros s Hlw Hne; [done |].
  destruct (step_keeps_other_lists lw snapshot op s Hlw Hne) as [Hlw' Hne'].
  by apply (IH (MainWindow.step op s)).
Qed.

(** Unless there is a new send, [self.thread] keeps referring to a worker
    with the same model name and the same list. *)
Lemma steps_keep_thread_fields (t : ResponseThread.t)
    (ops : list MainWindow.Op) (s : State) :
  Forall (λ op, op ≠ MainWindow.op_send) ops →
  thread s = Some t →
  ∃ t', thread (MainWindow.steps ops s) = Some t' ∧
        ResponseThread.model_name t' = ResponseThread.model_name t ∧
        ResponseThread.messages t' = ResponseThread.messages t.
Proof.
  intros Hops. revert t s.
  induction Hops as [|op ops Hop _ IH]; intros t s Ht; [by exists t |].
  assert (∃ t', thread (MainWindow.step op s) = Some t' ∧
                ResponseThread.model_name t' = ResponseThread.model_name t ∧
                ResponseThread.messages t' = ResponseThread.messages t)
    as (t' & Ht' & <- & <-).
  { assert (∃ t', thread (MainWindow.stop_chat s) = Some t' ∧
              ResponseThread.model_name t' = ResponseThread.model_name t ∧
              ResponseThread.messages t' = ResponseThread.messages t) as Hstop.
    { unfold MainWindow.stop_chat. rewrite Ht.
      destruct (ResponseThread.isRunning t); simpl; rewrite ?Ht; eauto. }
    destruct op as [text| | | |text|value|sig|]; simpl; eauto.
    - done.
    - destruct sig; simpl; eauto.
    - unfold MainWindow.thread_finished. rewrite Ht. simpl. eauto. }
  by apply (IH t').
Qed.

(** C9.  [model_changed] writes [selected_model] and no other attribute.  The
    worker of a send holds the model selected at that time and its own
    copy of the messages, taken after the trim; whatever the window does
    afterwards (a change of model, messages appended or trimmed, a stop, a
    further send), the list of that worker has the same contents, so that
    its [run] passes the same model and the same messages to the service;
    and as long as there is no new send, [self.thread] refers to a worker
    with that model and that list.  A send after a change of model uses the
    new model. *)
Theorem model_changed_leaves_worker (s : State) (M : list Message) :
  conversation s = Some M →
  input_field s ≠ "" →
  (∀ text v,
     selected_model (MainWindow.model_changed text v) = text ∧
     heap (MainWindow.model_changed text v) = heap v ∧
     messages (MainWindow.model_changed text v) = messages v ∧
     assistant_response (MainWindow.model_changed text v) = assistant_response v ∧
     thread (MainWindow.model_changed text v) = thread v ∧
     context_length (MainWindow.model_changed text v) = context_length v ∧
     input_field (MainWindow.model_changed text v) = input_field v ∧
     chat_display (MainWindow.model_changed text v) = chat_display v ∧
     message_boxes (MainWindow.model_changed text v) = message_boxes v ∧
     status_bar (MainWindow.model_changed text v) = status_bar v) ∧
  ∃ t,
    thread (MainWindow.send_message s) = Some t ∧
    ResponseThread.model_name t = selected_model s ∧
    ResponseThread.messages t ≠ messages (MainWindow.send_message s) ∧
    (∀ ops,
       list_read (ResponseThread.messages t)
         (heap (MainWindow.steps ops (MainWindow.send_message s)))
       = trim_list (context_length s) (M ++ [mkMessage "user" (input_field s)]) ∧
       ∀ ollama_chat,
         ResponseThread.run ollama_chat t
           (heap (MainWindow.steps ops (MainWindow.send_message s)))
         = ResponseThread.run ollama_chat t (heap (MainWindow.send_message s))) ∧
    (∀ ops, Forall (λ op, op ≠ MainWindow.op_send) ops →
       ∃ t', thread (MainWindow.steps ops (MainWindow.send_message s)) = Some t' ∧
             ResponseThread.model_name t' = selected_model s ∧
             ResponseThread.messages t' = ResponseThread.messages t) ∧
    (∀ text, ∃ t',
       thread (MainWindow.send_message
                 (MainWindow.model_changed text
                    (set_input_field "next" (MainWindow.send_message s))))
       = Some t' ∧ ResponseThread.model_name t' = text).
Proof.
  intros Hc Hp%truthy_true. split; [done |].
  destruct (send_message_effect s M Hc Hp)
    as (lw & Hne & Ht & Hlw & Hc1 & Hm1 & _).
  eexists. split; [exact Ht |]. simpl.
  split; [done |]. split; [by rewrite Hm1 |]. split; [| split].
  - intros ops.
    assert (heap (MainWindow.steps ops (MainWindow.send_message s)) !! lw
            = Some (trim_list (context_length s)
                      (M ++ [mkMessage "user" (input_field s)]))) as Hkeep.
    { apply steps_keep_other_lists; [done | by rewrite Hm1]. }
    unfold ResponseThread.run, list_read. simpl. by rewrite Hkeep, Hlw.
  - intros ops Hops.
    destruct (steps_keep_thread_fields _ ops _ Hops Ht) as (t' & Ht' & Hn & Hl).
    eauto.
  - intros text.
    destruct (send_message_effect
                (MainWindow.model_changed text
                   (set_input_field "next" (MainWindow.send_message s)))
                (trim_list (context_length s)
                   (M ++ [mkMessage "user" (input_field s)])))
      as (lw' & _ & Ht' & _); [exact Hc1 | done |].
    eexists. split; [exact Ht' | done].
Qed.

Lemma model_changed_leaves_worker_witness :
  let s := set_selected_model "llama3" (set_input_field "hello" MainWindow.__init__) in
  ∃ t, thread (MainWindow.send_message s) = Some t ∧
       ResponseThread.model_name t = "llama3" ∧
       list_read (ResponseThread.messages t)
         (heap (MainWindow.steps
                  [MainWindow.op_model_changed "mistral";
                   MainWindow.op_signal (response_chunk_received "Hi");
                   MainWindow.op_signal (response_finished "Hi")]
                  (MainWindow.send_message s)))
       = [mkMessage "user" "hello"].
Proof.
  intros s.
  destruct (model_changed_leaves_worker s []) as (_ & t & Ht & Hn & _ & Hkeep & _);
    [by vm_compute | done |].
  exists t. split; [exact Ht |]. split; [exact Hn |].
  exact (proj1 (Hkeep _)).
Defined.

(** ** The copy in [QtOllama-main-quilly] *)

(** The worker: when the generator raises, the handler passes the exception
    object to a signal of strings; the chunk signals are all that is
    emitted, and a [TypeError] leaves [run]. *)
Lemma quilly_run_loop_raised (response : string) (F : list string) (e : Exception) :
  Quilly.run_loop response F (Some e)
  = (map response_chunk_received F,
     Some (mkException "TypeError"
             ("emit(): argument 1 has unexpected type '" +:+ exc_type e +:+ "'"))).
Proof.
  revert response. induction F as [|f F IH]; intros response; [done |].
  cbn [Quilly.run_loop map]. by rewrite IH.
Qed.

Lemma quilly_run_loop_completed (response : string) (F : list string) :
  Quilly.run_loop response F None
  = (ResponseThread.run_loop response F None, None).
Proof.
  revert response. induction F as [|f F IH]; intros response; [done |].
  cbn [Quilly.run_loop ResponseThread.run_loop]. by rewrite IH.
Qed.

(** C4, the worker of [QtOllama-main-quilly/quilLlama.py] on a stream that
    yields "Hi" and then raises: the chunk signal is emitted, no error
    signal follows, and the exception that leaves [run] is a [TypeError];
    on the same stream the worker of [quilLlama.py] emits the chunk signal
    and then the error signal with the description. *)
Theorem quilly_run_emits_no_error_signal :
  let chat : Service := λ _ _,
    mkChatStream [mkChunk (mkMessage "assistant" "Hi")]
      (Some (mkException "ConnectionError" "connection refused")) in
  let s := Quilly.send_message (set_input_field "hello" Quilly.__init__) in
  ∃ t, thread s = Some t ∧
    Quilly.run chat t (heap s)
    = ([response_chunk_received "Hi"],
       Some (mkException "TypeError"
               "emit(): argument 1 has unexpected type 'ConnectionError'")) ∧
    (∀ description, error_occurred description ∉ (Quilly.run chat t (heap s)).1) ∧
    ResponseThread.run chat t (heap s)
    = [response_chunk_received "Hi"; error_occurred "connection refused"].
Proof.
  intros chat s. eexists. split; [by vm_compute |].
  split; [by vm_compute |]. split; [| by vm_compute].
  intros description Hin.
  assert ((Quilly.run chat (ResponseThread.mk "" 2 true) (heap s)).1
          = [response_chunk_received "Hi"]) as Hrun by (by vm_compute).
  rewrite Hrun in Hin. apply list_elem_of_singleton in Hin. discriminate.
Qed.

(** C3, the send of [QtOllama-main-quilly/quilLlama.py] after an exchange
    whose first message has 8192 characters: the worker is started over
    the three messages, 8196 characters in all, with a context length of
    8192; nothing was removed. *)
Theorem quilly_send_message_does_not_trim :
  let long := string_repeat "a" 8192%Z in
  let s :=
    Quilly.steps
      [Quilly.op_input long; Quilly.op_send;
       Quilly.op_signal (response_chunk_received "ok");
       Quilly.op_signal (response_finished "ok");
       Quilly.op_thread_finished;
       Quilly.op_input "hi"] Quilly.__init__ in
  let K := [mkMessage "user" long; mkMessage "assistant" "ok";
            mkMessage "user" "hi"] in
  ∃ t,
    thread (Quilly.send_message s) = Some t ∧
    ResponseThread.isRunning t = true ∧
    heap (Quilly.send_message s) !! ResponseThread.messages t = Some K ∧
    conversation (Quilly.send_message s) = Some K ∧
    length K = 3 ∧
    context_length (Quilly.send_message s) = 8192%Z ∧
    total_length K = 8196%Z ∧
    trim_list 8192 K = [mkMessage "assistant" "ok"; mkMessage "user" "hi"].
Proof.
  intros long s K. eexists.
  split; [by vm_compute |]. repeat split; by vm_compute.
Qed.

(** ** The messages of the user *)

Lemma conversation_start_thread (s : State) :
  is_Some (conversation s) →
  conversation (MainWindow.start_thread s) = conversation s.
Proof.
  intros Hc. unfold conversation in *.
  destruct (lookup_list_new_old (list_read (messages s) (heap s)) (heap s)
              (messages s) Hc) as [_ Hold].
  unfold MainWindow.start_thread, ResponseThread.__init__, list_copy.
  destruct (list_new _ (heap s)) as [l h]. simpl in *. done.
Qed.

Lemma conversation_messages_append (m : Message) (s : State) :
  conversation (messages_append m s) = (λ ms, ms ++ [m]) <$> conversation s.
Proof. unfold conversation, messages_append, list_append. simpl. apply lookup_alter_eq. Qed.

Lemma conversation_stop_chat (s : State) :
  conversation (MainWindow.stop_chat s) = Some [].
Proof.
  unfold MainWindow.stop_chat, conversation.
  case_thread s; simpl; apply lookup_insert_eq.
Qed.

(** The conversation after a send of [QtOllama-main-quilly]. *)
Lemma conversation_quilly_send_message (s : State) (M : list Message) :
  conversation s = Some M →
  conversation (Quilly.send_message s)
  = Some (if truthy (input_field s)
          then M ++ [mkMessage "user" (input_field s)] else M).
Proof.
  intros Hc. unfold Quilly.send_message.
  destruct (truthy (input_field s)); [| done].
  rewrite conversation_start_thread.
  - unfold display_message. simpl.
    change (conversation (messages_append (mkMessage "user" (input_field s)) s)
            = Some (M ++ [mkMessage "user" (input_field s)])).
    by rewrite conversation_messages_append, Hc.
  - unfold display_message. simpl.
    change (is_Some (conversation
                       (messages_append (mkMessage "user" (input_field s)) s))).
    rewrite conversation_messages_append, Hc. by eexists.
Qed.

(** The conversation after an action of analysis: nothing is added when
    there is neither a selection nor a message of the user; otherwise one
    message of the user, whose content begins with a fixed text. *)
Lemma conversation_perform_ai_analysis (selection : option string)
    (analysis_type : string) (s : State) (M : list Message) :
  conversation s = Some M →
  conversation (Quilly.perform_ai_analysis selection analysis_type s).1 = Some M ∨
  ∃ rest,
    conversation (Quilly.perform_ai_analysis selection analysis_type s).1
    = Some (M ++ [mkMessage "user" ("Please perform a " +:+ rest)]).
Proof.
  intros Hc. unfold Quilly.perform_ai_analysis.
  assert (∀ text,
    conversation
      (chat_display_append "<b>Assistant:</b> "
         (set_assistant_response ""
            (display_message "user"
               ("Please perform a " +:+ analysis_type
                +:+ " on the following text: '" +:+ text +:+ "'")
               (messages_append
                  (mkMessage "user"
                     ("Please perform a " +:+ analysis_type
                      +:+ " on the following text: '" +:+ text +:+ "'")) s))))
    = Some (M ++ [mkMessage "user"
                    ("Please perform a " +:+ analysis_type
                     +:+ " on the following text: '" +:+ text +:+ "'")]))
    as Happ.
  { intros text. unfold display_message. simpl.
    set (m := mkMessage "user" _).
    change (conversation (messages_append m s) = Some (M ++ [m])).
    by rewrite conversation_messages_append, Hc. }
  destruct selection as [selected|].
  - right. eexists. apply Happ.
  - destruct (truthy (Quilly.get_last_user_message s)).
    + right. eexists. apply Happ.
    + left. done.
Qed.

Lemma first_user_empty (ms : list Message) :
  user_contents_nonempty ms →
  Quilly.first_user ms = "" ↔ Forall (λ m, role m ≠ "user") ms.
Proof.
  intros Hne. split; [| apply first_user_none].
  induction Hne as [|m ms Hm _ IH]; [done |]. simpl.
  destruct (String.eqb_spec (role m) "user") as [Hu|Hu].
  - intros Hc. by destruct (Hm Hu).
  - intros Hf. constructor; [done | by apply IH].
Qed.

(** In [QtOllama-main-quilly], every step of the window keeps a
    conversation in which the messages of the user are not empty. *)
Lemma quilly_step_user_contents (op : Quilly.Op) (s : State) (M : list Message) :
  conversation s = Some M → user_contents_nonempty M →
  ∃ M', conversation (Quilly.step op s) = Some M' ∧ user_contents_nonempty M'.
Proof.
  intros Hc HM.
  destruct op as [text| |selection analysis_type| | |text|value|sig|]; simpl;
    try (by exists M).
  - (* send *)
    rewrite (conversation_quilly_send_message s M Hc).
    eexists. split; [done |].
    destruct (truthy (input_field s)) eqn:Hp; [| done].
    apply Forall_app. split; [done |].
    constructor; [| done]. intros _. by apply truthy_true.
  - (* analysis *)
    destruct (conversation_perform_ai_analysis selection analysis_type s M Hc)
      as [Hsame|[rest Happ]]; [by exists M |].
    eexists. split; [exact Happ |].
    apply Forall_app. split; [done |].
    constructor; [| done]. intros _. simpl. done.
  - exists []. split; [apply conversation_stop_chat | done].
  - exists []. split; [apply conversation_stop_chat | done].
  - (* a signal *)
    destruct sig as [chunk|response|description]; simpl; try (by exists M).
    unfold MainWindow.handle_response_finished.
    rewrite conversation_messages_append, Hc. simpl.
    eexists. split; [done |].
    apply Forall_app. split; [done |].
    constructor; [| done]. simpl. discriminate.
  - unfold MainWindow.thread_finished. destruct (thread s); by exists M.
Qed.

Lemma quilly_steps_user_contents (ops : list Quilly.Op) (s : State) (M : list Message) :
  conversation s = Some M → user_contents_nonempty M →
  ∃ M', conversation (Quilly.steps ops s) = Some M' ∧ user_contents_nonempty M'.
Proof.
  revert s M. induction ops as [|op ops IH]; intros s M Hc HM; [by exists M |].
  destruct (quilly_step_user_contents op s M Hc HM) as (M' & Hc' & HM').
  exact (IH (Quilly.step op s) M' Hc' HM').
Qed.

Lemma count_user_app (ms1 ms2 : list Message) :
  Quilly.count_user (ms1 ++ ms2) = Quilly.count_user ms1 + Quilly.count_user ms2.
Proof. unfold Quilly.count_user. by rewrite filter_app, length_app. Qed.

Lemma Forall_rev_iff {A} (P : A → Prop) (l : list A) :
  Forall P (rev l) ↔ Forall P l.
Proof.
  split; intros H; [| by apply Forall_rev].
  rewrite <- (rev_involutive l). by apply Forall_rev.
Qed.

(** Which steps add a message of the user. *)
Lemma quilly_step_count_user (op : Quilly.Op) (s : State) (M M' : list Message) :
  conversation s = Some M →
  conversation (Quilly.step op s) = Some M' →
  Quilly.count_user M < Quilly.count_user M' →
  (op = Quilly.op_send ∧ input_field s ≠ "") ∨
  ∃ selection analysis_type, op = Quilly.op_analysis selection analysis_type.
Proof.
  intros Hc Hc' Hlt.
  destruct op as [text| |selection analysis_type| | |text|value|sig|];
    simpl in Hc'; eauto.
  - unfold conversation in *. simpl in Hc'. rewrite Hc in Hc'.
    injection Hc' as <-. lia.
  - left. split; [done |].
    rewrite (conversation_quilly_send_message s M Hc) in Hc'.
    destruct (truthy (input_field s)) eqn:Hp; [by apply truthy_true |].
    injection Hc' as <-. lia.
  - rewrite conversation_stop_chat in Hc'. injection Hc' as <-.
    unfold Quilly.count_user in Hlt. simpl in Hlt. lia.
  - unfold MainWindow.restart_chat in Hc'.
    rewrite conversation_stop_chat in Hc'. injection Hc' as <-.
    unfold Quilly.count_user in Hlt. simpl in Hlt. lia.
  - unfold conversation in *. simpl in Hc'. rewrite Hc in Hc'.
    injection Hc' as <-. lia.
  - unfold Quilly.update_context_length in Hc'. rewrite Hc in Hc'.
    injection Hc' as <-. lia.
  - destruct sig as [chunk|response|description]; simpl in Hc'.
    + unfold conversation in *. simpl in Hc'. rewrite Hc in Hc'.
      injection Hc' as <-. lia.
    + unfold MainWindow.handle_response_finished in Hc'.
      rewrite conversation_messages_append, Hc in Hc'. simpl in Hc'.
      injection Hc' as <-. rewrite count_user_app in Hlt.
      unfold Quilly.count_user at 3 in Hlt. simpl in Hlt. lia.
    + unfold conversation in *. simpl in Hc'. rewrite Hc in Hc'.
      injection Hc' as <-. lia.
  - unfold MainWindow.thread_finished in Hc'.
    destruct (thread s); unfold conversation in *; simpl in Hc';
      rewrite Hc in Hc'; injection Hc' as <-; lia.
Qed.

(** C10, amended.  In every state that the window of
    [QtOllama-main-quilly] reaches, every message of the user in the
    conversation has a content that is not empty, so that
    [get_last_user_message] returns the empty string exactly when the
    conversation has no message of the user.  A step adds a message of the
    user only if it is a send with a prompt that is not empty, or an action
    of analysis; and what an action of analysis adds, if anything, is one
    message of the user whose content begins with a fixed text. *)
Theorem quilly_user_messages_nonempty (ops : list Quilly.Op) :
  (∃ M,
     conversation (Quilly.steps ops Quilly.__init__) = Some M ∧
     user_contents_nonempty M ∧
     (Quilly.get_last_user_message (Quilly.steps ops Quilly.__init__) = ""
      ↔ Forall (λ m, role m ≠ "user") M)) ∧
  (∀ op s M M',
     conversation s = Some M →
     conversation (Quilly.step op s) = Some M' →
     Quilly.count_user M < Quilly.count_user M' →
     (op = Quilly.op_send ∧ input_field s ≠ "") ∨
     ∃ selection analysis_type, op = Quilly.op_analysis selection analysis_type) ∧
  (∀ selection analysis_type s M,
     conversation s = Some M →
     conversation (Quilly.perform_ai_analysis selection analysis_type s).1 = Some M ∨
     ∃ rest,
       conversation (Quilly.perform_ai_analysis selection analysis_type s).1
       = Some (M ++ [mkMessage "user" ("Please perform a " +:+ rest)])).
Proof.
  split; [| split; [apply quilly_step_count_user
                   | apply conversation_perform_ai_analysis]].
  destruct (quilly_steps_user_contents ops Quilly.__init__ [])
    as (M & Hc & HM); [by vm_compute | done |].
  exists M. split; [done |]. split; [done |].
  unfold Quilly.get_last_user_message, list_read.
  unfold conversation in Hc. rewrite Hc. simpl.
  rewrite first_user_empty by (by apply Forall_rev).
  apply Forall_rev_iff.
Qed.

(** C10 as stated fails in [QtOllama-main-quilly]: after "hello" was sent,
    an action of analysis without a selection adds a second message of the
    user to the conversation. *)
Lemma perform_ai_analysis_appends_user_message :
  let s := Quilly.steps [Quilly.op_input "hello"; Quilly.op_send] Quilly.__init__ in
  conversation s = Some [mkMessage "user" "hello"] ∧
  conversation (Quilly.step (Quilly.op_analysis None "summary") s)
  = Some [mkMessage "user" "hello";
          mkMessage "user"
            "Please perform a summary on the following text: 'hello'"] ∧
  ¬ only_send_appends_user_messages.
Proof.
  intros s. split; [by vm_compute |]. split; [by vm_compute |].
  intros Honly.
  specialize (Honly (Quilly.op_analysis None "summary") s
                [mkMessage "user" "hello"]
                [mkMessage "user" "hello";
                 mkMessage "user"
                   "Please perform a summary on the following text: 'hello'"]).
  discriminate Honly; [by vm_compute | by vm_compute |].
  unfold Quilly.count_user. simpl. lia.
Qed.

(** ** The messages of the user in [quilLlama.py] and
    [streamchatContextAdder.py] *)

(** There the window has no action of analysis: every step keeps the
    messages of the user not empty, and the only step that adds a message
    of the user is a send with a prompt that is not empty. *)
Lemma mainwindow_step_user_contents (op : MainWindow.Op) (s : State)
    (M : list Message) :
  conversation s = Some M → user_contents_nonempty M →
  ∃ M', conversation (MainWindow.step op s) = Some M' ∧
        user_contents_nonempty M' ∧
        (Quilly.count_user M < Quilly.count_user M' →
         op = MainWindow.op_send ∧ input_field s ≠ "").
Proof.
  intros Hc HM.
  destruct op as [text| | | |text|value|sig|]; simpl;
    try same_conversation M.
  - (* send *)
    destruct (truthy (input_field s)) eqn:Hp.
    + destruct (send_message_effect s M Hc Hp) as (lw & _ & _ & _ & Hc1 & _).
      eexists. split; [exact Hc1 |].
      split; [| intros _; split; [done | by apply truthy_true]].
      destruct (trim_list_suffix (context_length s)
                  (M ++ [mkMessage "user" (input_field s)])) as [d Hd].
      assert (user_contents_nonempty (M ++ [mkMessage "user" (input_field s)]))
        as Hall.
      { apply Forall_app. split; [done |].
        constructor; [| done]. intros _. by apply truthy_true. }
      rewrite Hd in Hall. by apply Forall_app in Hall as [_ ?].
    + unfold MainWindow.send_message. rewrite Hp. same_conversation M.
  - exists []. split; [apply conversation_stop_chat |].
    split; [done |]. unfold Quilly.count_user at 2. simpl. lia.
  - exists []. split; [apply conversation_stop_chat |].
    split; [done |]. unfold Quilly.count_user at 2. simpl. lia.
  - (* a signal *)
    destruct sig as [chunk|response|description]; simpl;
      try same_conversation M.
    unfold MainWindow.handle_response_finished.
    rewrite conversation_messages_append, Hc. simpl.
    eexists. split; [done |]. split.
    + apply Forall_app. split; [done |].
      constructor; [| done]. simpl. discriminate.
    + rewrite count_user_app. unfold Quilly.count_user at 3. simpl. lia.
  - unfold MainWindow.thread_finished.
    destruct (thread s); same_conversation M.
Qed.

Lemma mainwindow_steps_user_contents (ops : list MainWindow.Op) :
  ∃ M, conversation (MainWindow.steps ops MainWindow.__init__) = Some M ∧
       user_contents_nonempty M.
Proof.
  assert (∀ s M, conversation s = Some M → user_contents_nonempty M →
            ∃ M', conversation (MainWindow.steps ops s) = Some M' ∧
                  user_contents_nonempty M') as Hgen.
  { induction ops as [|op ops IH]; intros s M Hc HM; [by exists M |].
    destruct (mainwindow_step_user_contents op s M Hc HM) as (M' & Hc' & HM' & _).
    exact (IH (MainWindow.step op s) M' Hc' HM'). }
  apply (Hgen MainWindow.__init__ []); [by vm_compute | done].
Qed.

(** * More of the code *)

(** ** More on the trim *)

Lemma trim_list_longer_suffix (B : Z) (pre suf : list Message) :
  length (trim_list B (pre ++ suf)) < length suf → (B < total_length suf)%Z.
Proof.
  induction pre as [|a pre IH]; simpl.
  - destruct suf as [|m suf]; [simpl; lia |].
    rewrite trim_list_cons.
    destruct (Z.gtb_spec (total_length (m :: suf)) B) as [Hgt|Hle]; [done |].
    simpl. lia.
  - rewrite trim_list_cons.
    destruct (_ && _); [done |].
    simpl. rewrite length_app. lia.
Qed.

(** X1.  The trim removes no more than it has to: every suffix of the
    conversation that is longer than what was kept exceeds the budget. *)
Theorem trim_messages_drops_no_more_than_needed
    (s : State) (pre suf K : list Message) :
  conversation s = Some (pre ++ suf) →
  conversation (MainWindow.trim_messages s) = Some K →
  length K < length suf →
  (context_length s < total_length suf)%Z.
Proof.
  intros Hc HK Hlen. rewrite conversation_trim_messages, Hc in HK.
  injection HK as <-. by apply (trim_list_longer_suffix _ pre).
Qed.

Lemma trim_messages_drops_no_more_than_needed_witness :
  let M := [mkMessage "user" "12345"; mkMessage "assistant" "6789";
            mkMessage "user" "abc"] in
  let s := set_context_length 8
             (set_heap {[ 1%positive := M ]} MainWindow.__init__) in
  conversation (MainWindow.trim_messages s)
  = Some [mkMessage "assistant" "6789"; mkMessage "user" "abc"] ∧
  (context_length s < total_length M)%Z.
Proof.
  intros M s. split; [by vm_compute |].
  apply (trim_messages_drops_no_more_than_needed s [] M
           [mkMessage "assistant" "6789"; mkMessage "user" "abc"]);
    [by vm_compute | by vm_compute | simpl; lia].
Defined.

Lemma trim_list_monotone (B1 B2 : Z) (ms : list Message) :
  (B1 ≤ B2)%Z → ∃ more, trim_list B2 ms = more ++ trim_list B1 ms.
Proof.
  intros HB. induction ms as [|m ms IH]; [by exists [] |].
  rewrite !trim_list_cons.
  destruct (Z.gtb_spec (total_length (m :: ms)) B2) as [Hgt2|Hle2],
           (Z.gtb_spec (total_length (m :: ms)) B1) as [Hgt1|Hle1],
           (Nat.ltb_spec 1 (length (m :: ms))) as [Hlen|Hlen];
    cbn [andb]; try lia; try (by exists []); try done.
  destruct (trim_list_suffix B1 ms) as [d Hd].
  exists (m :: d). simpl. by f_equal.
Qed.

(** X2.  A larger context length keeps at least what a smaller one keeps:
    the messages kept under the smaller one are a suffix of those kept
    under the larger one. *)
Theorem trim_messages_monotone (s : State) (M : list Message) (value : Z) :
  conversation s = Some M →
  (context_length s ≤ value)%Z →
  ∃ more K,
    conversation (MainWindow.trim_messages s) = Some K ∧
    conversation
      (MainWindow.trim_messages (MainWindow.update_context_length value s))
    = Some (more ++ K).
Proof.
  intros Hc HB.
  destruct (trim_list_monotone (context_length s) value M HB) as [more Hmore].
  exists more, (trim_list (context_length s) M).
  rewrite !conversation_trim_messages. unfold conversation in *. simpl.
  by rewrite Hc, <- Hmore.
Qed.

Lemma trim_messages_monotone_witness :
  let M := [mkMessage "user" "12345"; mkMessage "assistant" "6789";
            mkMessage "user" "abc"] in
  let s := set_context_length 4
             (set_heap {[ 1%positive := M ]} MainWindow.__init__) in
  ∃ more K,
    conversation (MainWindow.trim_messages s) = Some K ∧
    conversation
      (MainWindow.trim_messages (MainWindow.update_context_length 8 s))
    = Some (more ++ K).
Proof.
  intros M s. apply (trim_messages_monotone s M 8); [by vm_compute | by vm_compute].
Defined.

(** ** More on a send *)

(** X3.  A send loses no message while the conversation with the new
    message fits the context length: the conversation afterwards is the
    conversation before followed by the new message, and so is the copy
    of the worker. *)
Theorem send_message_within_budget (s : State) (M : list Message) :
  conversation s = Some M →
  input_field s ≠ "" →
  (total_length M + len (input_field s) ≤ context_length s)%Z →
  conversation (MainWindow.send_message s)
  = Some (M ++ [mkMessage "user" (input_field s)]) ∧
  ∃ t, thread (MainWindow.send_message s) = Some t ∧
       list_read (ResponseThread.messages t) (heap (MainWindow.send_message s))
       = M ++ [mkMessage "user" (input_field s)].
Proof.
  intros Hc Hp%truthy_true Hfit.
  destruct (send_message_effect s M Hc Hp) as (lw & _ & Ht & Hlw & Hc1 & _).
  assert (trim_list (context_length s) (M ++ [mkMessage "user" (input_field s)])
          = M ++ [mkMessage "user" (input_field s)]) as Hfixed.
  { apply trim_list_fixed. left.
    rewrite total_length_app, total_length_cons. simpl.
    change (total_length []) with 0%Z. lia. }
  rewrite Hfixed in Hlw, Hc1.
  split; [done |]. eexists. split; [exact Ht |].
  unfold list_read. simpl. by rewrite Hlw.
Qed.

Lemma send_message_within_budget_witness :
  let s := set_input_field "hello"
             (set_heap {[ 1%positive := [mkMessage "user" "a";
                                         mkMessage "assistant" "b"] ]}
                MainWindow.__init__) in
  conversation (MainWindow.send_message s)
  = Some [mkMessage "user" "a"; mkMessage "assistant" "b";
          mkMessage "user" "hello"].
Proof.
  intros s.
  apply (send_message_within_budget s
           [mkMessage "user" "a"; mkMessage "assistant" "b"]);
    [by vm_compute | done | by vm_compute].
Defined.

(** X4.  A change of the context length removes nothing by itself; the new
    value is the budget of the next send. *)
Theorem update_context_length_applies_at_next_send
    (s : State) (M : list Message) (value : Z) :
  conversation s = Some M →
  input_field s ≠ "" →
  conversation (MainWindow.update_context_length value s) = Some M ∧
  conversation
    (MainWindow.send_message (MainWindow.update_context_length value s))
  = Some (trim_list value (M ++ [mkMessage "user" (input_field s)])).
Proof.
  intros Hc Hp%truthy_true. split; [done |].
  destruct (send_message_effect (MainWindow.update_context_length value s) M)
    as (lw & _ & _ & _ & Hc1 & _); done.
Qed.

Lemma update_context_length_applies_at_next_send_witness :
  let M := [mkMessage "user" "12345"; mkMessage "assistant" "6789"] in
  let s := set_input_field "abc"
             (set_heap {[ 1%positive := M ]} MainWindow.__init__) in
  conversation (MainWindow.update_context_length 8 s) = Some M ∧
  conversation (MainWindow.send_message (MainWindow.update_context_length 8 s))
  = Some [mkMessage "assistant" "6789"; mkMessage "user" "abc"].
Proof.
  intros M s.
  apply (update_context_length_applies_at_next_send s M 8); [by vm_compute | done].
Defined.

(** ** More on stopping *)

Lemma stop_chat_keeps_attributes (s : State) :
  assistant_response (MainWindow.stop_chat s) = assistant_response s ∧
  selected_model (MainWindow.stop_chat s) = selected_model s ∧
  context_length (MainWindow.stop_chat s) = context_length s ∧
  input_field (MainWindow.stop_chat s) = input_field s ∧
  message_boxes (MainWindow.stop_chat s) = message_boxes s ∧
  status_bar (MainWindow.stop_chat s) = status_bar s.
Proof. unfold MainWindow.stop_chat. by case_thread s. Qed.

(** X5.  [stop_chat] writes the conversation, the display and the worker
    only: the accumulator, the model, the context length, the input field
    and the error boxes are as before, and so is every list object that
    existed, the copy of a worker among them.  Hence a finished signal
    handled after it puts the text accumulated before the stop into the
    new conversation, as its only message. *)
Theorem stop_chat_frame (s : State) :
  assistant_response (MainWindow.stop_chat s) = assistant_response s ∧
  selected_model (MainWindow.stop_chat s) = selected_model s ∧
  context_length (MainWindow.stop_chat s) = context_length s ∧
  input_field (MainWindow.stop_chat s) = input_field s ∧
  message_boxes (MainWindow.stop_chat s) = message_boxes s ∧
  status_bar (MainWindow.stop_chat s) = status_bar s ∧
  (∀ l ms, heap s !! l = Some ms → heap (MainWindow.stop_chat s) !! l = Some ms) ∧
  conversation (MainWindow.handle_response_finished (MainWindow.stop_chat s))
  = Some [mkMessage "assistant" (assistant_response s)].
Proof.
  destruct (stop_chat_keeps_attributes s) as (Hacc & Hmodel & Hctx & Hin & Hbox & Hbar).
  repeat split; try done.
  - intros l ms Hl.
    destruct (lookup_list_new_old [] (heap s) l) as [_ Hkeep]; [by eexists |].
    unfold MainWindow.stop_chat, list_new in *. simpl in Hkeep.
    case_thread s; simpl; by rewrite Hkeep.
  - unfold MainWindow.handle_response_finished.
    rewrite conversation_messages_append, conversation_stop_chat, Hacc. done.
Qed.

(** X6.  After [stop_chat] a send starts afresh: the conversation and the
    copy of the worker are the new message alone, whatever its length and
    the context length, and the model is the one selected before. *)
Theorem send_message_after_stop_chat (s : State) (prompt : string) :
  prompt ≠ "" →
  let s' := MainWindow.send_message
              (set_input_field prompt (MainWindow.stop_chat s)) in
  conversation s' = Some [mkMessage "user" prompt] ∧
  ∃ t, thread s' = Some t ∧
       ResponseThread.isRunning t = true ∧
       ResponseThread.model_name t = selected_model s ∧
       list_read (ResponseThread.messages t) (heap s') = [mkMessage "user" prompt].
Proof.
  intros Hp%truthy_true s'.
  destruct (send_message_effect
              (set_input_field prompt (MainWindow.stop_chat s)) [])
    as (lw & _ & Ht & Hlw & Hc1 & _);
    [apply conversation_stop_chat | done |].
  fold s' in Ht, Hlw, Hc1. simpl in Ht, Hlw, Hc1.
  rewrite trim_list_fixed in Hlw, Hc1 by (right; simpl; lia).
  split; [done |]. eexists. split; [exact Ht |]. simpl.
  split; [done |]. split; [apply stop_chat_keeps_attributes |].
  unfold list_read. by rewrite Hlw.
Qed.

Lemma send_message_after_stop_chat_witness :
  let s := set_context_length 3
             (set_heap {[ 1%positive := [mkMessage "user" "a";
                                         mkMessage "assistant" "b"] ]}
                MainWindow.__init__) in
  conversation
    (MainWindow.send_message (set_input_field "hello" (MainWindow.stop_chat s)))
  = Some [mkMessage "user" "hello"].
Proof.
  intros s. apply (send_message_after_stop_chat s "hello"). done.
Defined.

(** ** More on one exchange *)

(** X7.  Whether the stream ends or raises after the fragments [F], the
    display has received the message of the user, the heading of the
    answer and then the fragments, one insertion each, in order; the
    accumulator is the text of the fragments and the input field is
    empty.  After an exception the fragments are thus on the display and
    in the accumulator, and not in the conversation. *)
Theorem session_display
    (ollama_chat : Service) (s : State) (M : list Message) (F : list string)
    (outcome : option Exception) :
  conversation s = Some M →
  input_field s ≠ "" →
  ollama_generator ollama_chat (selected_model s)
    (trim_list (context_length s) (M ++ [mkMessage "user" (input_field s)]))
  = mkFragments F outcome →
  chat_display (MainWindow.session ollama_chat s).2
  = chat_display s
    ++ [display_append ("<b>User:</b> " +:+ input_field s);
        display_append "<b>Assistant:</b> "]
    ++ map display_insertPlainText F ∧
  assistant_response (MainWindow.session ollama_chat s).2 = concat_fragments F ∧
  input_field (MainWindow.session ollama_chat s).2 = "".
Proof.
  intros Hc Hp%truthy_true Hgen.
  destruct (session_effect ollama_chat s M Hc Hp) as (t & Ht & Hs).
  destruct (send_message_effect s M Hc Hp)
    as (lw & _ & _ & _ & _ & _ & Hacc & Hdisp & Hin & _).
  rewrite Hgen in Hs. cbn [yielded raised] in Hs.
  rewrite run_loop_signals in Hs. rewrite Hs. clear Hs. cbn [snd].
  rewrite deliver_all_app, deliver_all_chunks.
  destruct outcome as [e|]; simpl; rewrite Hacc, Hdisp, Hin, <- app_assoc; done.
Qed.

Lemma session_display_witness :
  let chat : Service := λ _ _,
    mkChatStream [mkChunk (mkMessage "assistant" "Hi")]
      (Some (mkException "ConnectionError" "connection refused")) in
  let s := set_input_field "hello" MainWindow.__init__ in
  chat_display (MainWindow.session chat s).2
  = [display_append "<b>User:</b> hello"; display_append "<b>Assistant:</b> ";
     display_insertPlainText "Hi"] ∧
  assistant_response (MainWindow.session chat s).2 = "Hi" ∧
  input_field (MainWindow.session chat s).2 = "".
Proof.
  intros chat s.
  apply (session_display chat s [] ["Hi"]
           (Some (mkException "ConnectionError" "connection refused")));
    [by vm_compute | done | reflexivity].
Defined.

(** ** The analytics *)

Lemma analytics_counts (ms : list Message) :
  Forall role_known ms →
  length (user_messages (analytics ms)) + length (assistant_messages (analytics ms))
  = total_messages (analytics ms).
Proof.
  unfold analytics. simpl. rewrite !length_map.
  induction 1 as [|m ms [Hm|Hm] _ IH]; [done | |];
    rewrite !filter_cons, Hm; simpl; lia.
Qed.

(** Every step of the window keeps a property of messages that the
    messages it builds have. *)
Lemma mainwindow_step_forall (P : Message → Prop) (op : MainWindow.Op)
    (s : State) (M : list Message) :
  (∀ text, P (mkMessage "user" text)) →
  (∀ text, P (mkMessage "assistant" text)) →
  conversation s = Some M → Forall P M →
  ∃ M', conversation (MainWindow.step op s) = Some M' ∧ Forall P M'.
Proof.
  intros Huser Hassistant Hc HM.
  destruct op as [text| | | |text|value|sig|]; simpl; try (by exists M).
  - destruct (truthy (input_field s)) eqn:Hp.
    + destruct (send_message_effect s M Hc Hp) as (lw & _ & _ & _ & Hc1 & _).
      eexists. split; [exact Hc1 |].
      destruct (trim_list_suffix (context_length s)
                  (M ++ [mkMessage "user" (input_field s)])) as [d Hd].
      assert (Forall P (M ++ [mkMessage "user" (input_field s)])) as Hall
        by (apply Forall_app; split; [done | by constructor]).
      rewrite Hd in Hall. by apply Forall_app in Hall as [_ ?].
    + unfold MainWindow.send_message. rewrite Hp. by exists M.
  - exists []. split; [apply conversation_stop_chat | done].
  - exists []. split; [apply conversation_stop_chat | done].
  - destruct sig as [chunk|response|description]; simpl; try (by exists M).
    unfold MainWindow.handle_response_finished.
    rewrite conversation_messages_append, Hc. simpl.
    eexists. split; [done |]. apply Forall_app. split; [done | by constructor].
  - unfold MainWindow.thread_finished. destruct (thread s); by exists M.
Qed.

Lemma quilly_step_forall (P : Message → Prop) (op : Quilly.Op)
    (s : State) (M : list Message) :
  (∀ text, P (mkMessage "user" text)) →
  (∀ text, P (mkMessage "assistant" text)) →
  conversation s = Some M → Forall P M →
  ∃ M', conversation (Quilly.step op s) = Some M' ∧ Forall P M'.
Proof.
  intros Huser Hassistant Hc HM.
  destruct op as [text| |selection analysis_type| | |text|value|sig|]; simpl;
    try (by exists M).
  - rewrite (conversation_quilly_send_message s M Hc).
    eexists. split; [done |].
    destruct (truthy (input_field s)); [| done].
    apply Forall_app. split; [done | by constructor].
  - destruct (conversation_perform_ai_analysis selection analysis_type s M Hc)
      as [Hsame|[rest Happ]]; [by exists M |].
    eexists. split; [exact Happ |].
    apply Forall_app. split; [done | by constructor].
  - exists []. split; [apply conversation_stop_chat | done].
  - exists []. split; [apply conversation_stop_chat | done].
  - destruct sig as [chunk|response|description]; simpl; try (by exists M).
    unfold MainWindow.handle_response_finished.
    rewrite conversation_messages_append, Hc. simpl.
    eexists. split; [done |]. apply Forall_app. split; [done | by constructor].
  - unfold MainWindow.thread_finished. destruct (thread s); by exists M.
Qed.

Lemma mainwindow_steps_forall (P : Message → Prop) (ops : list MainWindow.Op) :
  (∀ text, P (mkMessage "user" text)) →
  (∀ text, P (mkMessage "assistant" text)) →
  ∃ M, conversation (MainWindow.steps ops MainWindow.__init__) = Some M ∧
       Forall P M.
Proof.
  intros Huser Hassistant.
  assert (∀ s M, conversation s = Some M → Forall P M →
            ∃ M', conversation (MainWindow.steps ops s) = Some M' ∧ Forall P M')
    as Hgen.
  { induction ops as [|op ops IH]; intros s M Hc HM; [by exists M |].
    destruct (mainwindow_step_forall P op s M Huser Hassistant Hc HM)
      as (M' & Hc' & HM').
    exact (IH (MainWindow.step op s) M' Hc' HM'). }
  apply (Hgen MainWindow.__init__ []); [by vm_compute | done].
Qed.

Lemma quilly_steps_forall (P : Message → Prop) (ops : list Quilly.Op) :
  (∀ text, P (mkMessage "user" text)) →
  (∀ text, P (mkMessage "assistant" text)) →
  ∃ M, conversation (Quilly.steps ops Quilly.__init__) = Some M ∧ Forall P M.
Proof.
  intros Huser Hassistant.
  assert (∀ s M, conversation s = Some M → Forall P M →
            ∃ M', conversation (Quilly.steps ops s) = Some M' ∧ Forall P M')
    as Hgen.
  { induction ops as [|op ops IH]; intros s M Hc HM; [by exists M |].
    destruct (quilly_step_forall P op s M Huser Hassistant Hc HM)
      as (M' & Hc' & HM').
    exact (IH (Quilly.step op s) M' Hc' HM'). }
  apply (Hgen Quilly.__init__ []); [by vm_compute | done].
Qed.

(** X8.  In every state that the window reaches, in each copy, the counts
    that [show_analytics] reports add up: the messages of the user and the
    messages of the assistant are all the messages. *)
Theorem show_analytics_counts_add_up
    (ops : list MainWindow.Op) (ops' : list Quilly.Op) :
  let counted (s : State) := analytics (list_read (messages s) (heap s)) in
  let a := counted (MainWindow.steps ops MainWindow.__init__) in
  let a' := counted (Quilly.steps ops' Quilly.__init__) in
  length (user_messages a) + length (assistant_messages a) = total_messages a ∧
  length (user_messages a') + length (assistant_messages a') = total_messages a'.
Proof.
  intros counted a a'.
  destruct (mainwindow_steps_forall role_known ops) as (M & Hc & HM);
    [by left | by right |].
  destruct (quilly_steps_forall role_known ops') as (M' & Hc' & HM');
    [by left | by right |].
  unfold a, a', counted, list_read.
  unfold conversation in Hc, Hc'. rewrite Hc, Hc'. simpl.
  split; by apply analytics_counts.
Qed.

Lemma fold_tokens_shift (ms : list Message) (a : nat) :
  fold_left (λ acc msg, acc + length (split (content msg))) ms a
  = a + total_tokens (analytics ms).
Proof.
  unfold analytics. simpl. revert a.
  induction ms as [|m ms IH]; intros a; simpl; [lia |].
  rewrite (IH (a + _)), (IH (length _)). lia.
Qed.

Lemma total_tokens_cons (m : Message) (ms : list Message) :
  total_tokens (analytics (m :: ms))
  = length (split (content m)) + total_tokens (analytics ms).
Proof.
  unfold analytics at 1. simpl. by rewrite fold_tokens_shift.
Qed.

Lemma length_split_from (word s : string) :
  length (split_from word s)
  ≤ (if truthy word then 1 else 0) + String.length s.
Proof.
  revert word. induction s as [|c s IH]; intros word; simpl.
  - destruct (truthy word); simpl; lia.
  - destruct (isspace c).
    + specialize (IH ""). simpl in IH. destruct (truthy word); simpl; lia.
    + specialize (IH (word +:+ String c "")).
      destruct (truthy (word +:+ String c "")), (truthy word); lia.
Qed.

(** X9.  The number of tokens that [show_analytics] estimates, the words of
    the contents split at spaces, is at most the number of characters that
    the trim counts; a content of spaces only counts for none. *)
Theorem show_analytics_tokens_at_most_characters (ms : list Message) :
  (Z.of_nat (total_tokens (analytics ms)) ≤ total_length ms)%Z ∧
  (∀ n, split (string_repeat " " n) = []).
Proof.
  split.
  - induction ms as [|m ms IH]; [done |].
    rewrite total_tokens_cons, total_length_cons.
    pose proof (length_split_from "" (content m)) as Hm.
    unfold split, len. simpl in Hm. lia.
  - intros n. unfold string_repeat, split.
    induction (Z.to_nat n) as [|k IH]; [done |].
    simpl. exact IH.
Qed.

(** ** More of [QtOllama-main-quilly] *)

(** The state after a send of a prompt that is not empty. *)
Lemma quilly_send_message_effect (s : State) (M : list Message) :
  conversation s = Some M → truthy (input_field s) = true →
  let K := M ++ [mkMessage "user" (input_field s)] in
  let s1 := Quilly.send_message s in
  ∃ lw,
    lw ≠ messages s ∧
    thread s1 = Some (ResponseThread.mk (selected_model s) lw true) ∧
    heap s1 !! lw = Some K ∧
    conversation s1 = Some K ∧
    messages s1 = messages s ∧
    assistant_response s1 = "" ∧
    chat_display s1
    = chat_display s ++ [display_append ("<b>User:</b> " +:+ input_field s);
                         display_append "<b>Assistant:</b> "] ∧
    input_field s1 = "" ∧
    context_length s1 = context_length s.
Proof.
  intros Hc Hp K s1. unfold conversation in Hc.
  set (u := mkMessage "user" (input_field s)) in *.
  set (h2 := list_append (messages s) u (heap s)).
  assert (h2 !! messages s = Some K) as Hh2.
  { unfold h2, list_append. by rewrite lookup_alter_eq, Hc. }
  assert (s1 = set_thread
                 (Some (ResponseThread.mk (selected_model s)
                          (list_new K h2).1 true))
                 (set_heap (list_new K h2).2
                    (set_chat_display
                       (chat_display s ++
                          [display_append ("<b>User:</b> " +:+ input_field s);
                           display_append "<b>Assistant:</b> "])
                       (set_assistant_response ""
                          (set_input_field "" s))))) as ->.
  { unfold s1, Quilly.send_message. rewrite Hp.
    unfold MainWindow.start_thread, ResponseThread.__init__, list_copy, list_read.
    cbn -[list_new]. fold u. fold h2. rewrite Hh2.
    cbn -[list_new]. destruct (list_new K h2) as [lw h3].
    unfold set_thread, set_heap. cbn. by rewrite <- app_assoc. }
  destruct (lookup_list_new_old K h2 (messages s)) as [Hne Hold]; [by eexists |].
  exists (list_new K h2).1. unfold conversation.
  cbn -[list_new]. rewrite lookup_list_new, Hold, Hh2. done.
Qed.

(** X10.  In [QtOllama-main-quilly] an exchange whose stream ends adds two
    messages and removes none, whatever the context length: the worker
    emits the signals that the worker of the other copies emits and no
    exception leaves [run], and the conversation afterwards is the
    conversation before followed by the message of the user and the
    message of the assistant. *)
Theorem quilly_session_keeps_every_message
    (ollama_chat : Service) (s : State) (M : list Message) (F : list string) :
  conversation s = Some M →
  input_field s ≠ "" →
  ollama_generator ollama_chat (selected_model s)
    (M ++ [mkMessage "user" (input_field s)])
  = mkFragments F None →
  (Quilly.session ollama_chat s).1
  = (map response_chunk_received F ++ [response_finished (concat_fragments F)],
     None) ∧
  conversation (Quilly.session ollama_chat s).2
  = Some (M ++ [mkMessage "user" (input_field s);
                mkMessage "assistant" (concat_fragments F)]).
Proof.
  intros Hc Hp%truthy_true Hgen.
  destruct (quilly_send_message_effect s M Hc Hp)
    as (lw & _ & Ht & Hlw & Hc1 & _ & Hacc & _).
  unfold Quilly.session, MainWindow.thread_finished. rewrite Hp, Ht.
  unfold Quilly.run, list_read.
  cbn [ResponseThread.messages ResponseThread.model_name]. rewrite Hlw.
  cbn [default id]. rewrite Hgen.
  cbn [yielded raised]. rewrite quilly_run_loop_completed, run_loop_signals.
  split; [done |]. cbn [snd].
  rewrite deliver_all_app, deliver_all_chunks.
  unfold conversation in *. simpl. unfold list_append.
  rewrite lookup_alter_eq, Hc1, Hacc. simpl. by rewrite <- app_assoc.
Qed.

Lemma quilly_session_keeps_every_message_witness :
  let chat : Service := λ _ _,
    mkChatStream [mkChunk (mkMessage "assistant" "Hi");
                  mkChunk (mkMessage "assistant" "!")] None in
  let s := set_input_field "hello"
             (set_heap {[ 1%positive := [mkMessage "user" (string_repeat "a" 9000)] ]}
                Quilly.__init__) in
  conversation (Quilly.session chat s).2
  = Some [mkMessage "user" (string_repeat "a" 9000); mkMessage "user" "hello";
          mkMessage "assistant" "Hi!"].
Proof.
  intros chat s.
  apply (quilly_session_keeps_every_message chat s
           [mkMessage "user" (string_repeat "a" 9000)] ["Hi"; "!"]);
    [by vm_compute | done | reflexivity].
Defined.

Lemma quilly_step_context_length (op : Quilly.Op) (s : State) :
  context_length (Quilly.step op s) = context_length s.
Proof.
  destruct op as [text| |selection analysis_type| | |text|value|sig|]; simpl;
    try done.
  - unfold Quilly.send_message, MainWindow.start_thread, ResponseThread.__init__,
      list_copy, list_new, display_message.
    by destruct (truthy (input_field s)).
  - unfold Quilly.perform_ai_analysis.
    destruct selection; [done |].
    by destruct (truthy (Quilly.get_last_user_message s)).
  - apply stop_chat_keeps_attributes.
  - apply stop_chat_keeps_attributes.
  - by destruct sig.
  - unfold MainWindow.thread_finished. by destruct (thread s).
Qed.

(** X11.  In [QtOllama-main-quilly] the context length is 8192 in every
    state that the window reaches: the spinner calls
    [update_context_length], which does nothing. *)
Theorem quilly_context_length_is_constant (ops : list Quilly.Op) :
  context_length (Quilly.steps ops Quilly.__init__) = 8192%Z.
Proof.
  assert (∀ s, context_length (Quilly.steps ops s) = context_length s) as Hgen.
  { induction ops as [|op ops IH]; intros s; [done |].
    simpl. change (fold_left _ ops ?x) with (Quilly.steps ops x).
    by rewrite IH, quilly_step_context_length. }
  by rewrite Hgen.
Qed.

(** What [perform_ai_analysis] does, by the text it finds. *)
Lemma perform_ai_analysis_effect (selection : option string)
    (analysis_type : string) (s : State) :
  Quilly.perform_ai_analysis selection analysis_type s
  = match analysed_text selection s with
    | None =>
        (Quilly.update_status "Please select text or send a message first." s,
         None)
    | Some text =>
        (set_chat_display
           (chat_display s
            ++ [display_append
                  ("<b>User:</b> " +:+ analysis_prompt analysis_type text);
                display_append "<b>Assistant:</b> "])
           (set_assistant_response ""
              (messages_append
                 (mkMessage "user" (analysis_prompt analysis_type text)) s)),
         Some (Quilly.AttributeError "trim_messages"))
    end.
Proof.
  unfold Quilly.perform_ai_analysis, analysed_text.
  destruct selection as [selected|];
    [| destruct (truthy (Quilly.get_last_user_message s))]; try done;
    unfold display_message, chat_display_append, set_chat_display; simpl;
    by rewrite <- app_assoc.
Qed.

(** X12.  An action of analysis never starts a worker and never touches
    the input field.  When there is neither a selection nor a message of
    the user, it only writes a hint to the status bar.  Otherwise it adds
    the prompt to the conversation and to the display, empties the
    accumulator, and ends with an [AttributeError], the worker being still
    the one before.  [regenerate_analysis] does the same. *)
Theorem perform_ai_analysis_starts_no_worker (selection : option string)
    (analysis_type : string) (s : State) :
  let r := Quilly.perform_ai_analysis selection analysis_type s in
  thread r.1 = thread s ∧
  input_field r.1 = input_field s ∧
  (selection = None ∧ Quilly.get_last_user_message s = "" ↔ r.2 = None) ∧
  (r.2 = None →
   r.1 = set_status_bar "Please select text or send a message first." s) ∧
  (∀ text, analysed_text selection s = Some text →
     r.2 = Some (Quilly.AttributeError "trim_messages") ∧
     assistant_response r.1 = "" ∧
     chat_display r.1
     = chat_display s
       ++ [display_append ("<b>User:</b> " +:+ analysis_prompt analysis_type text);
           display_append "<b>Assistant:</b> "] ∧
     conversation r.1
     = (λ ms, ms ++ [mkMessage "user" (analysis_prompt analysis_type text)])
         <$> conversation s) ∧
  Quilly.regenerate_analysis selection analysis_type s = r.
Proof.
  intros r. unfold r, Quilly.regenerate_analysis.
  rewrite perform_ai_analysis_effect.
  destruct (analysed_text selection s) as [text|] eqn:Htext; simpl.
  - split; [done |]. split; [done |]. split.
    { split; [| done]. intros [-> Hlast]. unfold analysed_text in Htext.
      by rewrite Hlast in Htext. }
    split; [done |]. split; [| done].
    intros text' [= <-]. split; [done |]. split; [done |]. split; [done |].
    apply conversation_messages_append.
  - split; [done |]. split; [done |]. split.
    { split; [done |]. intros _. unfold analysed_text in Htext.
      destruct selection; [done |].
      destruct (truthy (Quilly.get_last_user_message s)) eqn:Hlast; [done |].
      split; [done | by apply truthy_false]. }
    split; [done |]. split; [| done]. by intros text' [=].
Qed.

Lemma get_last_user_message_snoc_user (s : State) (M : list Message)
    (text : string) :
  conversation s = Some (M ++ [mkMessage "user" text]) →
  Quilly.get_last_user_message s = text.
Proof.
  intros Hc. unfold Quilly.get_last_user_message, list_read.
  unfold conversation in Hc. rewrite Hc. simpl. by rewrite rev_unit.
Qed.

(** X13.  The prompt of an analysis becomes the last message of the user;
    so an analysis regenerated without a selection quotes the prompt of
    the analysis before it, not the text that was analysed. *)
Theorem regenerate_analysis_quotes_previous_prompt
    (selection : option string) (analysis_type again : string)
    (s : State) (M : list Message) (text : string) :
  conversation s = Some M →
  analysed_text selection s = Some text →
  let s1 := (Quilly.perform_ai_analysis selection analysis_type s).1 in
  let s2 := (Quilly.regenerate_analysis None again s1).1 in
  Quilly.get_last_user_message s1 = analysis_prompt analysis_type text ∧
  conversation s2
  = Some (M ++ [mkMessage "user" (analysis_prompt analysis_type text);
                mkMessage "user"
                  (analysis_prompt again (analysis_prompt analysis_type text))]).
Proof.
  intros Hc Htext s1 s2.
  assert (conversation s1
          = Some (M ++ [mkMessage "user" (analysis_prompt analysis_type text)]))
    as Hc1.
  { unfold s1. rewrite perform_ai_analysis_effect, Htext. simpl.
    change (conversation
              (messages_append
                 (mkMessage "user" (analysis_prompt analysis_type text)) s)
            = Some (M ++ [mkMessage "user" (analysis_prompt analysis_type text)])).
    by rewrite conversation_messages_append, Hc. }
  pose proof (get_last_user_message_snoc_user s1 M _ Hc1) as Hlast.
  split; [done |].
  unfold s2, Quilly.regenerate_analysis.
  rewrite perform_ai_analysis_effect. unfold analysed_text. rewrite Hlast.
  cbn [truthy analysis_prompt String.append]. simpl fst.
  change (conversation
            (messages_append
               (mkMessage "user"
                  (analysis_prompt again (analysis_prompt analysis_type text))) s1)
          = Some (M ++ [mkMessage "user" (analysis_prompt analysis_type text);
                        mkMessage "user"
                          (analysis_prompt again
                             (analysis_prompt analysis_type text))])).
  rewrite conversation_messages_append, Hc1. simpl. by rewrite <- app_assoc.
Qed.

Lemma regenerate_analysis_quotes_previous_prompt_witness :
  let s := Quilly.steps [Quilly.op_input "hello"; Quilly.op_send] Quilly.__init__ in
  conversation
    (Quilly.regenerate_analysis None "summary"
       (Quilly.perform_ai_analysis None "summary" s).1).1
  = Some [mkMessage "user" "hello";
          mkMessage "user" "Please perform a summary on the following text: 'hello'";
          mkMessage "user"
            "Please perform a summary on the following text: 'Please perform a summary on the following text: 'hello''"].
Proof.
  intros s.
  destruct (regenerate_analysis_quotes_previous_prompt None "summary" "summary" s
              [mkMessage "user" "hello"] "hello") as [_ Hconv];
    [by vm_compute | by vm_compute |].
  exact Hconv.
Defined.

(** X14.  After a send the last message of the user is the prompt, and it
    stays so while the answer streams in and when it is appended. *)
Theorem get_last_user_message_after_send
    (s : State) (M : list Message) (F : list string) (response : string) :
  conversation s = Some M →
  input_field s ≠ "" →
  Quilly.get_last_user_message (Quilly.send_message s) = input_field s ∧
  Quilly.get_last_user_message
    (MainWindow.deliver_all (map response_chunk_received F)
       (Quilly.send_message s)) = input_field s ∧
  Quilly.get_last_user_message
    (MainWindow.deliver_all
       (map response_chunk_received F ++ [response_finished response])
       (Quilly.send_message s)) = input_field s.
Proof.
  intros Hc Hp%truthy_true.
  destruct (quilly_send_message_effect s M Hc Hp) as (lw & _ & _ & _ & Hc1 & _).
  split; [by apply (get_last_user_message_snoc_user _ M) |].
  split.
  - apply (get_last_user_message_snoc_user _ M).
    by rewrite conversation_deliver_chunks.
  - rewrite deliver_all_app, deliver_all_chunks.
    unfold Quilly.get_last_user_message, list_read. simpl.
    unfold conversation in Hc1. unfold list_append.
    rewrite lookup_alter_eq, Hc1. simpl.
    rewrite rev_unit. simpl. by rewrite rev_unit.
Qed.

Lemma get_last_user_message_after_send_witness :
  Quilly.get_last_user_message
    (MainWindow.deliver_all
       (map response_chunk_received ["Hi"; "!"] ++ [response_finished "Hi!"])
       (Quilly.send_message (set_input_field "hello" Quilly.__init__)))
  = "hello".
Proof.
  apply (get_last_user_message_after_send
           (set_input_field "hello" Quilly.__init__) [] ["Hi"; "!"] "Hi!");
    [by vm_compute | done].
Defined.

(** ** The list of models *)

Lemma model_names_nameless (models : list (gmap string string)) :
  Exists (λ model, model !! "name" = None) models →
  model_names models = inl (KeyError "name").
Proof.
  induction 1 as [model models Hnone|model models _ IH]; simpl.
  - by rewrite Hnone.
  - destruct (model !! "name"); [by rewrite IH | done].
Qed.

Lemma model_names_named (models : list (gmap string string)) (names : list string) :
  Forall2 (λ model name, model !! "name" = Some name) models names →
  model_names models = inr names.
Proof.
  induction 1 as [|model name models names Hname _ IH]; simpl; [done |].
  by rewrite Hname, IH.
Qed.

(** X15.  [load_models] fails as a whole: when [ollama.list()] raises, when
    its answer has no key "models", or when one model of the list has no
    key "name", no item is added to the combo box, not even the models
    that have a name; the selected model and the connection of the combo
    box are as before, and one error box is shown.  If the combo box was
    not connected, picking an item afterwards does not select a model. *)
Theorem load_models_fails_as_a_whole
    (ollama_list : Exception + gmap string (list (gmap string string)))
    (w : Window) :
  (∃ e, ollama_list = inl e) ∨
  (∃ response, ollama_list = inr response ∧
     (response !! "models" = None ∨
      ∃ models, response !! "models" = Some models ∧
                Exists (λ model, model !! "name" = None) models)) →
  ∃ e,
    (e = KeyError "models" ∨ e = KeyError "name" ∨ ollama_list = inl e) ∧
    load_models ollama_list w
    = mkWindow
        (set_message_boxes
           (message_boxes (core w) ++ ["Failed to load models: " +:+ str e])
           (core w))
        (model_combo w) (model_changed_connections w) ∧
    (model_changed_connections w = 0 →
     ∀ text, selected_model
               (core (current_text_changed text (load_models ollama_list w)))
             = selected_model (core w)).
Proof.
  intros Hcause.
  assert (∃ e, (e = KeyError "models" ∨ e = KeyError "name" ∨ ollama_list = inl e)
               ∧ listed_model_names ollama_list = inl e) as (e & He & Hlist).
  { destruct Hcause as [[e ->]|(response & -> & [Hnone|(models & Hsome & Hex)])].
    - exists e. auto.
    - exists (KeyError "models"). simpl. rewrite Hnone. auto.
    - exists (KeyError "name"). simpl.
      rewrite Hsome, (model_names_nameless models Hex). auto. }
  exists e. split; [done |].
  unfold load_models. rewrite Hlist. split; [done |].
  intros Hzero text. unfold current_text_changed. simpl. by rewrite Hzero.
Qed.

Lemma load_models_fails_as_a_whole_witness :
  let response : gmap string (list (gmap string string)) :=
    {[ "models" := [ {[ "name" := "llama3" ]}; {[ "model" := "mistral" ]} ] ]} in
  let w := mkWindow MainWindow.__init__ [] 0 in
  ∃ e, load_models (inr response) w
       = mkWindow
           (set_message_boxes ["Failed to load models: " +:+ str e]
              MainWindow.__init__) [] 0.
Proof.
  intros response w.
  destruct (load_models_fails_as_a_whole (inr response) w) as (e & _ & Hload & _).
  - right. exists response. split; [done |]. right.
    eexists. split; [by vm_compute |].
    apply Exists_cons_tl, Exists_cons_hd. by vm_compute.
  - exists e. exact Hload.
Defined.

(** X16.  When every model of the list has a name, [load_models] adds the
    names to the combo box in the order of the list and shows no box; the
    first name becomes the selected model and the combo box is connected,
    so that picking an item selects it.  With an empty list nothing is
    selected and nothing is connected. *)
Theorem load_models_lists_names
    (response : gmap string (list (gmap string string)))
    (models : list (gmap string string)) (names : list string) (w : Window) :
  response !! "models" = Some models →
  Forall2 (λ model name, model !! "name" = Some name) models names →
  let w' := load_models (inr response) w in
  model_combo w' = model_combo w ++ names ∧
  message_boxes (core w') = message_boxes (core w) ∧
  selected_model (core w') = default (selected_model (core w)) (head names) ∧
  model_changed_connections w'
  = (if names is [] then 0 else 1) + model_changed_connections w ∧
  (names ≠ [] → ∀ text,
     selected_model (core (current_text_changed text w')) = text).
Proof.
  intros Hmodels Hnames w'. unfold w', load_models. simpl.
  rewrite Hmodels, (model_names_named models names Hnames).
  destruct names as [|first names']; simpl; [done |].
  by repeat split.
Qed.

Lemma load_models_lists_names_witness :
  let response : gmap string (list (gmap string string)) :=
    {[ "models" := [ {[ "name" := "llama3" ]}; {[ "name" := "mistral" ]} ] ]} in
  let w' := load_models (inr response) (mkWindow MainWindow.__init__ [] 0) in
  model_combo w' = ["llama3"; "mistral"] ∧
  selected_model (core w') = "llama3" ∧
  model_changed_connections w' = 1.
Proof.
  intros response w'.
  destruct (load_models_lists_names response
              [ {[ "name" := "llama3" ]}; {[ "name" := "mistral" ]} ]
              ["llama3"; "mistral"] (mkWindow MainWindow.__init__ [] 0))
    as (Hcombo & _ & Hmodel & Hconn & _).
  - by vm_compute.
  - repeat constructor; by vm_compute.
  - split; [exact Hcombo |]. split; [exact Hmodel | exact Hconn].
Defined.

(** ** The export of the chat *)

Lemma known_extension_cases (file_extension : string) :
  known_extension file_extension = true →
  file_extension = "txt" ∨ file_extension = "md" ∨
  file_extension = "html" ∨ file_extension = "pdf".
Proof.
  unfold known_extension. intros Hin%bool_decide_eq_true.
  repeat (apply elem_of_cons in Hin as [->|Hin]; [tauto |]).
  by apply elem_of_nil in Hin.
Qed.

(** [download_chat] of [QtOllama-main-quilly], by the suffix of the file. *)
Lemma quilly_download_chat_cases (os_open : string → option Exception)
    (filename : string) (fs : files) (s : State) :
  filename ≠ "" →
  let text := markdown_content (list_read (messages s) (heap s)) in
  let target := download_target filename in
  Quilly.download_chat os_open filename fs s
  = if String.eqb (lower (suffix filename)) "pdf"
    then mkDownload fs (Some (filename, chat_display s)) None
    else match os_open target with
         | Some e => mkDownload fs None (Some e)
         | None =>
             if String.eqb (lower (suffix filename)) "html"
             then mkDownload (<[target := ""]> fs) None
                    (Some (NameError "markdown"))
             else mkDownload (<[target := text]> fs) None None
         end.
Proof.
  intros Hname%truthy_true text target.
  unfold Quilly.download_chat, Quilly.write_file, target, download_target.
  rewrite Hname. fold text.
  destruct (known_extension (lower (suffix filename))) eqn:Hknown; simpl.
  - destruct (known_extension_cases _ Hknown) as [-> | [-> | [-> | ->]]]; simpl;
      try done; by destruct (os_open filename).
  - assert (String.eqb (lower (suffix filename)) "pdf" = false) as ->.
    { apply String.eqb_neq. intros Heq. by rewrite Heq in Hknown. }
    assert (String.eqb (lower (suffix filename)) "html" = false) as ->.
    { apply String.eqb_neq. intros Heq. by rewrite Heq in Hknown. }
    by destruct (os_open (filename +:+ ".txt")).
Qed.


(** X18.  In [QtOllama-main-quilly] an export to a file whose suffix,
    whatever its case, is neither "html" nor "pdf" writes the text built
    from the messages, one paragraph for each message in order, and reading
    the file back gives that text; a suffix that is not known makes the
    file the one chosen with [".txt"] added. *)
Theorem quilly_download_chat_writes_messages
    (os_open : string → option Exception) (filename : string) (fs : files)
    (s : State) :
  filename ≠ "" →
  lower (suffix filename) ≠ "pdf" →
  lower (suffix filename) ≠ "html" →
  os_open (download_target filename) = None →
  let d := Quilly.download_chat os_open filename fs s in
  download_files d !! download_target filename
  = Some (join (LF +:+ LF)
            (map (λ msg, "**" +:+ role msg +:+ "**: " +:+ content msg)
               (list_read (messages s) (heap s)))) ∧
  download_raised d = None ∧
  download_printed_pdf d = None.
Proof.
  intros Hname Hpdf Hhtml Hopen d. unfold d.
  rewrite (quilly_download_chat_cases os_open filename fs s Hname), Hopen.
  apply String.eqb_neq in Hpdf, Hhtml. rewrite Hpdf, Hhtml. simpl.
  split; [apply lookup_insert_eq | done].
Qed.

Lemma quilly_download_chat_writes_messages_witness :
  let s := set_heap {[ 1%positive := [mkMessage "user" "hello";
                                      mkMessage "assistant" "Hi!"] ]}
             Quilly.__init__ in
  download_files (Quilly.download_chat (λ _, None) "/home/me/chat.TXT" ∅ s)
  !! "/home/me/chat.TXT"
  = Some ("**user**: hello" +:+ LF +:+ LF +:+ "**assistant**: Hi!") ∧
  download_files (Quilly.download_chat (λ _, None) "/home/me.d/notes" ∅ s)
  !! "/home/me.d/notes.txt"
  = Some ("**user**: hello" +:+ LF +:+ LF +:+ "**assistant**: Hi!").
Proof.
  intros s. split.
  - apply (quilly_download_chat_writes_messages (λ _, None) "/home/me/chat.TXT" ∅ s);
      by vm_compute.
  - apply (quilly_download_chat_writes_messages (λ _, None) "/home/me.d/notes" ∅ s);
      by vm_compute.
Defined.

(** X19.  In [QtOllama-main-quilly] an export to a file with the suffix
    "html" leaves that file empty, whatever it held and whatever the
    conversation, and ends with a [NameError]. *)
Theorem quilly_download_chat_html_is_empty
    (os_open : string → option Exception) (filename : string) (fs : files)
    (s : State) :
  lower (suffix filename) = "html" →
  os_open filename = None →
  Quilly.download_chat os_open filename fs s
  = mkDownload (<[filename := ""]> fs) None (Some (NameError "markdown")).
Proof.
  intros Hhtml Hopen.
  assert (filename ≠ "") as Hname by (by intros ->).
  rewrite (quilly_download_chat_cases os_open filename fs s Hname).
  unfold download_target, known_extension. rewrite Hhtml. simpl.
  by rewrite Hopen.
Qed.

Lemma quilly_download_chat_html_is_empty_witness :
  download_files
    (Quilly.download_chat (λ _, None) "chat.Html" {[ "chat.Html" := "old" ]}
       Quilly.__init__) !! "chat.Html" = Some "".
Proof.
  rewrite (quilly_download_chat_html_is_empty (λ _, None) "chat.Html");
    by vm_compute.
Defined.

(** X20.  In [quilLlama.py] and [streamchatContextAdder.py] an export never
    writes the messages: a cancelled dialog does nothing, a file whose
    suffix is "pdf", whatever its case, receives the print of the display,
    and for every other file the opening raises, with a [LookupError]
    when the system could open the file. *)
Theorem download_chat_writes_no_message
    (os_open : string → option Exception) (filename : string) (s : State) :
  match MainWindow.download_chat os_open filename s with
  | download_nothing => filename = ""
  | download_printed path display =>
      filename ≠ "" ∧ lower (suffix filename) = "pdf" ∧
      path = filename ∧ display = chat_display s
  | download_open_raised path e =>
      filename ≠ "" ∧ lower (suffix filename) ≠ "pdf" ∧
      path = download_target filename ∧
      e = default (LookupError "utf-REFACTOR NOTES 8-30") (os_open path)
  end.
Proof.
  unfold MainWindow.download_chat, download_target.
  destruct (truthy filename) eqn:Hname; [| by apply truthy_false].
  apply truthy_true in Hname.
  destruct (String.eqb_spec (lower (suffix filename)) "pdf") as [Hpdf|Hpdf].
  - rewrite Hpdf. by vm_compute.
  - destruct (known_extension (lower (suffix filename))); simpl;
      destruct (os_open _) eqn:Hopen; simpl; by rewrite Hopen.
Qed.

(** ** The lists of the window and of its worker *)

Lemma thread_stop_chat (s : State) (t : ResponseThread.t) :
  thread (MainWindow.stop_chat s) = Some t →
  ∃ t0, thread s = Some t0 ∧
        ResponseThread.messages t = ResponseThread.messages t0.
Proof.
  unfold MainWindow.stop_chat.
  destruct (thread s) as [t0|] eqn:Ht0;
    [destruct (ResponseThread.isRunning t0) |];
    simpl; rewrite ?Ht0; intros [= <-]; eauto.
Qed.

Lemma lists_apart_stop_chat (s : State) :
  lists_apart s → lists_apart (MainWindow.stop_chat s).
Proof.
  intros [_ Hthread].
  split; [rewrite conversation_stop_chat; by eexists |].
  intros t (t0 & Ht0 & ->)%thread_stop_chat.
  destruct (Hthread t0 Ht0) as [Hne [ms Hms]].
  destruct (stop_chat_keeps_other_lists (ResponseThread.messages t0) ms s Hms)
    as [Hkeep Hne']; [done |].
  split; [done | by eexists].
Qed.

Lemma lists_apart_step (op : MainWindow.Op) (s : State) :
  lists_apart s → lists_apart (MainWindow.step op s).
Proof.
  intros Hs. pose proof Hs as [[M Hc] Hthread].
  destruct op as [text| | | |text|value|sig|]; cbn [MainWindow.step]; try done.
  - (* send *)
    destruct (truthy (input_field s)) eqn:Hp;
      [| unfold MainWindow.send_message; by rewrite Hp].
    destruct (send_message_effect s M Hc Hp)
      as (lw & Hne & Ht & Hlw & Hc1 & Hm1 & _).
    split; [by eexists |]. intros t Ht'. rewrite Ht in Ht'.
    injection Ht' as <-. simpl. rewrite Hm1. split; [done | by eexists].
  - by apply lists_apart_stop_chat.
  - by apply lists_apart_stop_chat.
  - (* a signal *)
    destruct sig as [chunk|response|description]; cbn [MainWindow.deliver];
      try done.
    split.
    + unfold MainWindow.handle_response_finished.
      rewrite conversation_messages_append, Hc. by eexists.
    + intros t Ht. destruct (Hthread t Ht) as [Hne [ms Hms]].
      split; [done |]. exists ms. simpl. unfold list_append.
      by rewrite lookup_alter_ne.
  - (* the end of the worker *)
    unfold MainWindow.thread_finished.
    destruct (thread s) as [t0|] eqn:Ht0; [| done].
    split; [by eexists |]. intros t [= <-]. simpl. by apply Hthread.
Qed.

(** X21.  In every state that the window reaches, [self.messages] refers
    to a list that exists, and the worker that [self.thread] refers to, if
    any, holds another list: the window and its worker never share a
    list of messages. *)
Theorem window_and_worker_share_no_list (ops : list MainWindow.Op) :
  lists_apart (MainWindow.steps ops MainWindow.__init__).
Proof.
  assert (∀ s, lists_apart s → lists_apart (MainWindow.steps ops s)) as Hgen.
  { induction ops as [|op ops IH]; intros s Hs; [done |].
    apply (IH (MainWindow.step op s)), lists_apart_step, Hs. }
  apply Hgen. split; [by eexists | done].
Qed.

(** ** The simulation *)

Section Simulation_facts.
Context {Time : Type}.
Implicit Types (sigs : list (Simulation.Signal Time)) (start_time : Time).

Lemma truthy_opt_true (x : option string) :
  Simulation.truthy_opt x = true → ∃ s, x = Some s ∧ s ≠ "".
Proof.
  destruct x as [s|]; [| done]. intros Hs%truthy_true. eauto.
Qed.

Lemma loop_segmented (format_exc : Exception → string) start_time
    (first_chunk : bool) (result : string)
    (responses : list Simulation.Response) (raised : option Exception) :
  Simulation.segmented start_time first_chunk result
    (Simulation.loop format_exc start_time first_chunk result responses raised).
Proof.
  revert first_chunk result.
  induction responses as [|response rest IH]; intros first_chunk result; simpl.
  - by destruct raised.
  - destruct (Simulation.first_choice response) as [e|choice]; [done |].
    destruct (Simulation.truthy_opt (Simulation.content_of choice)) eqn:Hcontent.
    + destruct (truthy_opt_true _ Hcontent) as (content & -> & Hne). simpl.
      destruct (Simulation.truthy_opt (Simulation.choice_finish_reason choice));
        simpl; repeat split; try done; apply IH.
    + destruct (Simulation.truthy_opt (Simulation.choice_finish_reason choice));
        simpl; repeat split; try done; apply IH.
Qed.

Lemma run_segmented (format_exc : Exception → string) start_time
    (settings : Exception + gmap string string)
    (create : string → list Message
              → Exception + (list Simulation.Response * option Exception))
    (messages : list Message) :
  Simulation.segmented start_time true ""
    (Simulation.run format_exc start_time settings create messages).
Proof.
  unfold Simulation.run.
  destruct settings as [e|settings]; [done |].
  destruct (settings !! "api_key"); [| done].
  destruct (settings !! "conversation_model") as [model|]; [| done].
  destruct (create model messages) as [e|[responses raised]]; [done |].
  apply loop_segmented.
Qed.

(** X22.  The signals of [SimWorker.run] follow one pattern, whatever the
    settings, the service and the stream do: every new message carries a
    content that is not empty and the start time; its flag is set exactly
    when no content was emitted since the last complete message or the
    start; every complete message carries the contents emitted since the
    last one, joined; and an error signal, if any, is the last signal. *)
Theorem sim_worker_run_is_segmented (format_exc : Exception → string) start_time
    (settings : Exception + gmap string string)
    (create : string → list Message
              → Exception + (list Simulation.Response * option Exception))
    (messages : list Message) :
  Simulation.segmented start_time true ""
    (Simulation.run format_exc start_time settings create messages).
Proof.
  unfold Simulation.run.
  destruct settings as [e|settings]; [done |].
  destruct (settings !! "api_key"); [| done].
  destruct (settings !! "conversation_model") as [model|]; [| done].
  destruct (create model messages) as [e|[responses raised]]; [done |].
  apply loop_segmented.
Qed.

Lemma segmented_prefix start_time (first_chunk : bool) (result : string) sigs :
  Simulation.segmented start_time first_chunk result sigs →
  ∃ pending,
    result +:+ concat_fragments (Simulation.streamed sigs)
    = concat_fragments (Simulation.completed sigs) +:+ pending.
Proof.
  unfold concat_fragments.
  revert first_chunk result.
  induction sigs as [|sig sigs IH]; intros first_chunk result Hseg.
  - exists result. simpl. by rewrite append_empty_r.
  - destruct sig as [content first start|text start|description]; simpl in *.
    + destruct Hseg as (_ & _ & _ & Hseg).
      destruct (IH _ _ Hseg) as [pending Hpending].
      exists pending. by rewrite <- append_assoc.
    + destruct Hseg as (-> & _ & Hseg).
      destruct (IH _ _ Hseg) as [pending Hpending]. simpl in Hpending.
      exists pending. rewrite append_assoc. by rewrite <- Hpending.
    + subst sigs. exists result. simpl. by rewrite append_empty_r.
Qed.

Lemma loop_without_finish (format_exc : Exception → string) start_time
    (first_chunk : bool) (result : string)
    (responses : list Simulation.Response) (raised : option Exception) :
  Forall (λ response, ∀ choice, Simulation.first_choice response = inr choice →
            Simulation.truthy_opt (Simulation.choice_finish_reason choice) = false)
    responses →
  Simulation.completed
    (Simulation.loop format_exc start_time first_chunk result responses raised)
  = [].
Proof.
  intros Hall. revert first_chunk result.
  induction Hall as [|response rest Hresponse _ IH]; intros first_chunk result;
    simpl.
  - by destruct raised.
  - destruct (Simulation.first_choice response) as [e|choice]; [done |].
    rewrite (Hresponse choice eq_refl).
    destruct (Simulation.truthy_opt (Simulation.content_of choice)); simpl;
      apply IH.
Qed.

(** X23.  [SimWorker.run] completes only text that it streamed, in the
    same order: the texts of the complete messages, joined, are a prefix of
    the contents of the new messages, joined.  What is left is the text
    streamed after the last finish reason, which is never completed. *)
Theorem sim_worker_completes_a_prefix (format_exc : Exception → string) start_time
    (settings : Exception + gmap string string)
    (create : string → list Message
              → Exception + (list Simulation.Response * option Exception))
    (messages : list Message) :
  let sigs := Simulation.run format_exc start_time settings create messages in
  ∃ pending,
    concat_fragments (Simulation.streamed sigs)
    = concat_fragments (Simulation.completed sigs) +:+ pending.
Proof.
  intros sigs.
  apply (segmented_prefix start_time true "" sigs).
  apply run_segmented.
Qed.

End Simulation_facts.

Lemma rstrip_blank (s : string) : blank s = true → rstrip s = "".
Proof.
  induction s as [|c s IH]; [done |]. simpl.
  intros [Hc Hs]%andb_prop. rewrite Hc, (IH Hs). done.
Qed.

Lemma lstrip_not_blank (s : string) : blank s = false → lstrip s ≠ "".
Proof.
  induction s as [|c s IH]; [done |]. simpl.
  destruct (isspace c); simpl; [exact IH | done].
Qed.

Lemma rstrip_not_blank (s : string) : blank s = false → blank (rstrip s) = false.
Proof.
  induction s as [|c s IH]; [done |]. simpl.
  destruct (isspace c) eqn:Hc; simpl.
  - intros Hs. specialize (IH Hs).
    destruct (rstrip s) as [|c' s'] eqn:Hr; [done |]. simpl.
    by rewrite Hc.
  - intros _. by rewrite Hc.
Qed.

(** [s.strip()] is empty exactly when [s] has spaces only. *)
Lemma strip_blank (s : string) : strip s = "" ↔ blank s = true.
Proof.
  unfold strip. split.
  - intros Hstrip. destruct (blank s) eqn:Hs; [done |].
    by destruct (lstrip_not_blank _ (rstrip_not_blank _ Hs)).
  - intros Hs. by rewrite rstrip_blank.
Qed.

Section Simulation_dialog_facts.
Context {Time : Type}.
Implicit Types (sigs : list (Simulation.Signal Time)) (d : Simulation.Dialog).

Lemma sim_deliver_all_cons (sig : Simulation.Signal Time) sigs d :
  Simulation.deliver_all (sig :: sigs) d
  = Simulation.deliver_all sigs (Simulation.deliver sig d).
Proof. reflexivity. Qed.

Lemma sim_deliver_keeps_location (sig : Simulation.Signal Time) d :
  Simulation.conversation_history (Simulation.deliver sig d)
  = Simulation.conversation_history d.
Proof.
  destruct sig as [content first start|text start|description]; simpl;
    [| done | done].
  unfold Simulation.update_ai_response. by destruct (negb _).
Qed.

(** Only a complete message changes the list and the progress bar. *)
Lemma sim_deliver_all_nothing_completed sigs d :
  Simulation.completed sigs = [] →
  Simulation.lists (Simulation.deliver_all sigs d) = Simulation.lists d ∧
  Simulation.progress_bar_shown (Simulation.deliver_all sigs d)
  = Simulation.progress_bar_shown d.
Proof.
  revert d. induction sigs as [|sig sigs IH]; intros d Hnone; [done |].
  rewrite sim_deliver_all_cons.
  destruct sig as [content first start|text start|description];
    [| done |]; simpl in Hnone.
  - destruct (IH (Simulation.deliver (Simulation.new_message content first start) d)
                Hnone) as [-> ->].
    simpl. unfold Simulation.update_ai_response. by destruct (negb _).
  - by destruct (IH (Simulation.deliver (Time:=Time) (Simulation.error description) d)
                   Hnone) as [-> ->].
Qed.

(** X24.  When no item of the stream has a finish reason, the dialog
    stores no answer, whatever was streamed and displayed: after all the
    signals of [SimWorker.run] the list [conversation_history] is as it
    was, and the progress bar is not hidden. *)
Theorem sim_dialog_stores_nothing_without_finish_reason
    (format_exc : Exception → string) (start_time : Time)
    (settings : Exception + gmap string string)
    (create : string → list Message
              → Exception + (list Simulation.Response * option Exception))
    (messages : list Message) d :
  (∀ model responses raised,
     create model messages = inr (responses, raised) →
     Forall (λ response, ∀ choice,
               Simulation.first_choice response = inr choice →
               Simulation.truthy_opt (Simulation.choice_finish_reason choice)
               = false) responses) →
  let d' :=
    Simulation.deliver_all
      (Simulation.run format_exc start_time settings create messages) d in
  Simulation.lists d' = Simulation.lists d ∧
  Simulation.progress_bar_shown d' = Simulation.progress_bar_shown d.
Proof.
  intros Hcreate d'. apply sim_deliver_all_nothing_completed.
  unfold Simulation.run.
  destruct settings as [e|settings]; [done |].
  destruct (settings !! "api_key"); [| done].
  destruct (settings !! "conversation_model") as [model|]; [| done].
  destruct (create model messages) as [e|[responses raised]] eqn:Hstream;
    [done |].
  apply loop_without_finish. by apply (Hcreate model responses raised).
Qed.

End Simulation_dialog_facts.

Lemma sim_dialog_stores_nothing_without_finish_reason_witness :
  let create : string → list Message
               → Exception + (list Simulation.Response * option Exception) :=
    λ _ _, inr ([Simulation.content_response "Hi";
                 Simulation.content_response " there"], None) in
  let d :=
    Simulation.mkDialog {[ 1%positive := [mkMessage "user" "hello"] ]}
      1%positive (Some 1%positive) [] "" true "" in
  let d' :=
    Simulation.deliver_all
      (Simulation.run (λ _, "") 0%Z
         (inr {[ "api_key" := "k"; "conversation_model" := "m" ]})
         create [mkMessage "user" "hello"]) d in
  Simulation.lists d' = Simulation.lists d ∧
  Simulation.progress_bar_shown d' = Simulation.progress_bar_shown d.
Proof.
  intros create d.
  apply (sim_dialog_stores_nothing_without_finish_reason (λ _, "") 0%Z
           (inr {[ "api_key" := "k"; "conversation_model" := "m" ]})
           create [mkMessage "user" "hello"] d).
  intros model responses raised [= <- <-].
  repeat constructor; intros choice [= <-]; reflexivity.
Defined.

Section Simulation_answer_facts.
Context {Time : Type}.
Implicit Types (d : Simulation.Dialog) (start_time : Time).

(** The contents of an answer after its first one: each is displayed as it
    is unless it has spaces only, and the finish reason stores the whole
    text, stripped. *)
Lemma sim_loop_rest_of_answer (format_exc : Exception → string) start_time
    (contents : list string) (finish_reason result : string)
    (raised : option Exception) d :
  Forall (λ content, content ≠ "") contents →
  finish_reason ≠ "" →
  let d' :=
    Simulation.deliver_all
      (Simulation.loop format_exc start_time false result
         (map Simulation.content_response contents
          ++ [Simulation.finish_response finish_reason]) raised) d in
  Simulation.lists d'
  = list_append (Simulation.conversation_history d)
      (mkMessage "assistant" (strip (result +:+ concat_fragments contents)))
      (Simulation.lists d) ∧
  Simulation.conversation_history d' = Simulation.conversation_history d ∧
  Simulation.ai_response_edit d'
  = Simulation.ai_response_edit d
    ++ map display_insertPlainText
         (filter (λ content, strip content ≠ "") contents) ∧
  Simulation.progress_bar_shown d' = false.
Proof.
  intros Hcontents Hreason. revert result d.
  induction Hcontents as [|content contents Hcontent _ IH]; intros result d.
  - cbn [map app concat_fragments foldr Simulation.loop
         Simulation.finish_response Simulation.first_choice
         Simulation.response_choices Simulation.content_of
         Simulation.choice_delta Simulation.delta_content
         Simulation.truthy_opt Simulation.choice_finish_reason].
    apply truthy_true in Hreason. rewrite Hreason.
    cbn [app]. rewrite sim_deliver_all_cons.
    rewrite append_empty_r, filter_nil, app_nil_r.
    destruct raised as [e|]; simpl; done.
  - cbn [map app Simulation.loop Simulation.content_response
         Simulation.first_choice Simulation.response_choices
         Simulation.content_of Simulation.choice_delta
         Simulation.delta_content Simulation.truthy_opt
         Simulation.choice_finish_reason default id].
    pose proof (proj2 (truthy_true content) Hcontent) as Htruthy.
    rewrite Htruthy. cbn [app]. rewrite sim_deliver_all_cons.
    destruct (IH (result +:+ content)
                (Simulation.deliver
                   (Simulation.new_message content false start_time) d))
      as (-> & -> & -> & ->).
    rewrite concat_fragments_cons, append_assoc.
    cbn [Simulation.deliver]. unfold Simulation.update_ai_response.
    destruct (String.eqb_spec (strip content) "") as [Hblank|Hblank];
      cbn [negb Simulation.lists Simulation.conversation_history
           Simulation.ai_response_edit].
    + rewrite filter_cons_False by (intros Hne; by apply Hne). done.
    + rewrite filter_cons_True by done. cbn [map].
      by rewrite <- app_assoc.
Qed.

(** X25.  One answer of the simulation: when the stream is the contents
    of the answer, none of them empty, and then a finish reason, the dialog
    appends one assistant message, whose content is all the contents
    joined and then stripped of the spaces at both ends.  The display
    receives the heading with the first content and then the other
    contents; a content of spaces only is not displayed, so an answer that
    starts with one is displayed without its heading. *)
Theorem sim_answer_is_stored_stripped (format_exc : Exception → string)
    start_time (settings : gmap string string)
    (create : string → list Message
              → Exception + (list Simulation.Response * option Exception))
    (messages history : list Message) (key model : string)
    (contents : list string) (finish_reason : string)
    (raised : option Exception) d :
  settings !! "api_key" = Some key →
  settings !! "conversation_model" = Some model →
  create model messages
  = inr (map Simulation.content_response contents
         ++ [Simulation.finish_response finish_reason], raised) →
  Forall (λ content, content ≠ "") contents →
  finish_reason ≠ "" →
  Simulation.lists d !! Simulation.conversation_history d = Some history →
  let d' :=
    Simulation.deliver_all
      (Simulation.run format_exc start_time (inr settings) create messages) d in
  Simulation.lists d' !! Simulation.conversation_history d'
  = Some (history
          ++ [mkMessage "assistant" (strip (concat_fragments contents))]) ∧
  Simulation.ai_response_edit d'
  = Simulation.ai_response_edit d ++ Simulation.shown contents ∧
  Simulation.progress_bar_shown d' = false.
Proof.
  intros Hkey Hmodel Hcreate Hcontents Hreason Hhistory d'. subst d'.
  unfold Simulation.run. rewrite Hkey, Hmodel, Hcreate.
  destruct Hcontents as [|content contents Hcontent Hcontents].
  - destruct (sim_loop_rest_of_answer format_exc start_time [] finish_reason ""
                raised d) as (Hlists & Hlocation & Hdisplay & Hbar);
      [done | done |].
    cbn [map app Simulation.loop Simulation.finish_response
         Simulation.first_choice Simulation.response_choices
         Simulation.content_of Simulation.choice_delta
         Simulation.delta_content Simulation.truthy_opt
         Simulation.choice_finish_reason] in *.
    rewrite (proj2 (truthy_true finish_reason) Hreason) in *. cbn [app] in *.
    rewrite Hlists, Hlocation, Hdisplay, Hbar.
    unfold list_append. rewrite lookup_alter_eq, Hhistory. done.
  - cbn [map app Simulation.loop Simulation.content_response
         Simulation.first_choice Simulation.response_choices
         Simulation.content_of Simulation.choice_delta
         Simulation.delta_content Simulation.truthy_opt
         Simulation.choice_finish_reason default id].
    rewrite (proj2 (truthy_true content) Hcontent). cbn [app].
    rewrite sim_deliver_all_cons.
    destruct (sim_loop_rest_of_answer format_exc start_time contents
                finish_reason ("" +:+ content) raised
                (Simulation.deliver
                   (Simulation.new_message content true start_time) d))
      as (-> & -> & -> & ->); [done | done |].
    assert (Simulation.lists
              (Simulation.deliver
                 (Simulation.new_message content true start_time) d)
            = Simulation.lists d ∧
            Simulation.conversation_history
              (Simulation.deliver
                 (Simulation.new_message content true start_time) d)
            = Simulation.conversation_history d) as [-> ->].
    { cbn [Simulation.deliver]. unfold Simulation.update_ai_response.
      by destruct (negb _). }
    split; [| split; [| done]].
    + unfold list_append. rewrite lookup_alter_eq, Hhistory. done.
    + cbn [Simulation.deliver Simulation.shown].
      unfold Simulation.update_ai_response.
      destruct (String.eqb (strip content) ""); cbn [negb];
        [done |]. cbn [Simulation.ai_response_edit]. by rewrite <- app_assoc.
Qed.

End Simulation_answer_facts.

Lemma sim_answer_is_stored_stripped_witness :
  let stream :=
    map Simulation.content_response [" "; "Hi"; " there "]
    ++ [Simulation.finish_response "stop"] in
  let d :=
    Simulation.mkDialog {[ 1%positive := [mkMessage "user" "hello"] ]}
      1%positive (Some 1%positive) [] "" true "" in
  let d' :=
    Simulation.deliver_all
      (Simulation.run (λ _, "") 0%Z
         (inr {[ "api_key" := "k"; "conversation_model" := "m" ]})
         (λ _ _, inr (stream, None)) [mkMessage "user" "hello"]) d in
  Simulation.lists d' !! Simulation.conversation_history d'
  = Some [mkMessage "user" "hello"; mkMessage "assistant" "Hi there"] ∧
  Simulation.ai_response_edit d'
  = [display_insertPlainText "Hi"; display_insertPlainText " there "] ∧
  Simulation.progress_bar_shown d' = false.
Proof.
  intros stream d.
  apply (sim_answer_is_stored_stripped (λ _, "") 0%Z
           {[ "api_key" := "k"; "conversation_model" := "m" ]}
           (λ _ _, inr (stream, None)) [mkMessage "user" "hello"]
           [mkMessage "user" "hello"] "k" "m" [" "; "Hi"; " there "] "stop"
           None d);
    try reflexivity; try done.
  repeat constructor; done.
Defined.

(** X26.  [send_user_input] takes the text of its argument, or the text
    of the input field when the argument is empty or [None].  A text of
    spaces only changes nothing.  Any other text is appended to
    [conversation_history] as it is, with its spaces, the input field is
    cleared, and the new worker holds the list [conversation_history]
    itself and not a copy: an answer that the dialog stores later is in
    the worker's list too. *)
Theorem send_user_input_shares_the_history (user_text : option string)
    (d : Simulation.Dialog) (history : list Message) :
  Simulation.lists d !! Simulation.conversation_history d = Some history →
  let text :=
    if Simulation.truthy_opt user_text then default "" user_text
    else Simulation.user_input_edit d in
  let d' := Simulation.send_user_input user_text d in
  (blank text = true → d' = d) ∧
  (blank text = false →
   Simulation.lists d' !! Simulation.conversation_history d'
   = Some (history ++ [mkMessage "user" text]) ∧
   Simulation.user_input_edit d' = "" ∧
   Simulation.progress_bar_shown d' = true ∧
   ∃ worker, Simulation.sim_worker d' = Some worker ∧
     ∀ full_response,
       list_read worker
         (Simulation.lists (Simulation.update_conversation_history full_response d'))
       = history ++ [mkMessage "user" text;
                     mkMessage "assistant" (strip full_response)]).
Proof.
  intros Hhistory text d'. subst d'. unfold Simulation.send_user_input.
  fold text. split.
  - intros Hblank%strip_blank. by rewrite Hblank.
  - intros Hblank.
    assert (truthy (strip text) = true) as ->.
    { apply truthy_true. intros Hstrip%strip_blank. congruence. }
    unfold Simulation.process_sim_worker.
    cbn [Simulation.lists
         Simulation.conversation_history Simulation.user_input_edit
         Simulation.progress_bar_shown Simulation.sim_worker].
    unfold list_append. rewrite lookup_alter_eq, Hhistory.
    repeat split. eexists. split; [done |].
    intros full_response.
    unfold list_read, Simulation.update_conversation_history,
      Simulation.process_sim_worker.
    cbn [Simulation.lists Simulation.conversation_history].
    unfold list_append. rewrite !lookup_alter_eq, Hhistory. simpl.
    by rewrite <- app_assoc.
Qed.

Lemma send_user_input_shares_the_history_witness :
  let d :=
    Simulation.mkDialog {[ 1%positive := [] ]} 1%positive None []
      " hello " false "" in
  let d' := Simulation.send_user_input None d in
  (Simulation.send_user_input (Some "  ") d = d) ∧
  Simulation.lists d' !! Simulation.conversation_history d'
  = Some [mkMessage "user" " hello "] ∧
  Simulation.user_input_edit d' = "".
Proof.
  intros d.
  destruct (send_user_input_shares_the_history None d [] eq_refl)
    as [_ Hsent].
  destruct (send_user_input_shares_the_history (Some "  ") d [] eq_refl)
    as [Hignored _].
  destruct (Hsent eq_refl) as (Hlist & Hfield & _).
  split; [exact (Hignored eq_refl) |]. split; [exact Hlist | exact Hfield].
Defined.
